(** * Embla: cookie-based JWT relay and cookie authenticator

    A shallow embedding of
    - [embla/users/api/jwt_views.py]   (CookieTokenObtainPairView,
      CookieTokenRefreshView, CookieTokenVerifyView),
    - [embla/users/api/authentication.py] (CookieJWTAuthentication),
    - [embla/users/api/views.py]       (logout, UserViewSet.get_queryset),
    and the properties of the specification that concern them.

    The views subclass the token library's views and call [super().post];
    the authenticator subclasses the library's authenticator.  The parent
    methods are external collaborators: every definition below takes them as
    arguments, so that each theorem holds for whatever the library does.
    A call may return, raise, and touch server-side state, hence the small
    state-and-exception monad [M].  [logout] is a function view: the
    decorators that wrap it run the web framework's checks before its body,
    and those checks are arguments as well. *)

From Stdlib Require Import ZArith.
From stdpp Require Import base strings gmap.

Set Warnings "-register-all".

Local Open Scope Z_scope.
Local Open Scope string_scope.

(** ** Python values *)

(** Values found in a JSON body ([request.data], [response.data]). *)
Inductive pyval : Type :=
  | PNone
  | PBool (b : bool)
  | PInt (n : Z)
  | PStr (s : string)
  | PList (items : list pyval)
  | PDict (items : list (string * pyval)).

(** Truth value of a Python [str]: only the empty string is false. *)
Definition str_truthy (s : string) : bool :=
  match s with
  | EmptyString => false
  | String _ _ => true
  end.

(** Python's truth-value testing, as used by [if access_token:]. *)
Definition truthy (v : pyval) : bool :=
  match v with
  | PNone => false
  | PBool b => b
  | PInt n => negb (n =? 0)%Z
  | PStr s => str_truthy s
  | PList items => match items with [] => false | _ :: _ => true end
  | PDict items => match items with [] => false | _ :: _ => true end
  end.

(** [d.get(key)]: the value, or [None] when the key is missing. *)
Definition dict_get (d : gmap string pyval) (key : string) : pyval :=
  match d !! key with
  | Some v => v
  | None => PNone
  end.

(** [request.COOKIES.get(key)] is [None] or a [str]; this is its truth value. *)
Definition cookie_truthy (c : option string) : bool :=
  match c with
  | Some s => str_truthy s
  | None => false
  end.

(** ** Durations *)

(** [timedelta(days=d, minutes=m)], in whole seconds. *)
Definition timedelta (days minutes : Z) : Z := days * 86400 + minutes * 60.

(** [td.total_seconds()]. *)
Definition total_seconds (td : Z) : Z := td.

(** ** Exceptions and the monad of a view *)

(** The exception classes that matter to [except InvalidToken]:
    [InvalidToken] (with its subclasses), its parent [AuthenticationFailed],
    and everything else, by class name. *)
Inductive exn : Type :=
  | InvalidToken (detail : string)
  | AuthenticationFailed (detail : string)
  | OtherException (cls detail : string).

Definition is_InvalidToken (e : exn) : bool :=
  match e with
  | InvalidToken _ => true
  | _ => false
  end.

Inductive result (A : Type) : Type :=
  | Return (a : A)
  | Raise (e : exn).
Arguments Return {A} a.
Arguments Raise {A} e.

(** A computation over the server-side state [St] that returns or raises. *)
Definition M (St A : Type) : Type := St -> result A * St.

Definition ret {St A : Type} (a : A) : M St A := fun st => (Return a, st).

(** [raise e] *)
Definition raise {St A : Type} (e : exn) : M St A := fun st => (Raise e, st).

(** A step that returns or raises without reading or writing the state. *)
Definition lift {St A : Type} (r : result A) : M St A := fun st => (r, st).

Definition bind {St A B : Type} (m : M St A) (k : A -> M St B) : M St B :=
  fun st =>
    match m st with
    | (Return a, st') => k a st'
    | (Raise e, st') => (Raise e, st')
    end.

(** [try: body  except <caught>: handler  else: orelse]: an exception of
    [body] that [caught] accepts runs [handler], any other one propagates;
    when [body] returns, [orelse] runs on what it bound, outside the guard. *)
Definition try_except_else {St A B : Type} (body : M St A) (caught : exn -> bool)
    (handler : M St B) (orelse : A -> M St B) : M St B :=
  fun st =>
    match body st with
    | (Return a, st') => orelse a st'
    | (Raise e, st') => if caught e then handler st' else (Raise e, st')
    end.

(** [try: body  except Exception as exc: handler(exc)] *)
Definition try_except_as {St A : Type} (body : M St A) (handler : exn -> M St A)
    : M St A :=
  fun st =>
    match body st with
    | (Return a, st') => (Return a, st')
    | (Raise e, st') => handler e st'
    end.

Notation "x <- m ;; k" := (bind m (fun x => k))
  (at level 100, m at next level, right associativity).

(** ** Settings, requests and responses *)

Record Settings := { DEBUG : bool }.

Definition HTTPStatus_OK : Z := 200.

(** A request as the views read it: the method, the cookies the client
    sent, and [request.data], the body as the framework parsed it. *)
Module Request.

(** What [request.data] is.  A JSON object (also an empty body that is not
    a form, and the copy made for an upload with files) is a [dict], which
    the views update in place.  A form or multipart body is an immutable
    [QueryDict].  Any other JSON value is that value (numbers are integers
    here).  A body the parser rejects makes the read of [request.data]
    raise. *)
Inductive Body : Type :=
  | Dict (fields : gmap string pyval)
  | QueryDict (fields : gmap string pyval)
  | JsonList (items : list pyval)
  | JsonStr (s : string)
  | JsonInt (n : Z)
  | JsonBool (b : bool)
  | JsonNull
  | Unreadable (e : exn).

Record t := mk {
  method : string;
  COOKIES : gmap string string;
  data : Body
}.

(** [request.data[key] = value]: reads [request.data], then assigns.  Only a
    [dict] takes the assignment. *)
Definition data_setitem (request : t) (key : string) (value : pyval) : result t :=
  match data request with
  | Dict fields =>
      Return {| method := method request; COOKIES := COOKIES request;
                data := Dict (<[key := value]> fields) |}
  | QueryDict _ =>
      Raise (OtherException "AttributeError" "This QueryDict instance is immutable")
  | JsonList _ =>
      Raise (OtherException "TypeError"
               "list indices must be integers or slices, not str")
  | JsonStr _ =>
      Raise (OtherException "TypeError"
               "'str' object does not support item assignment")
  | JsonInt _ =>
      Raise (OtherException "TypeError"
               "'int' object does not support item assignment")
  | JsonBool _ =>
      Raise (OtherException "TypeError"
               "'bool' object does not support item assignment")
  | JsonNull =>
      Raise (OtherException "TypeError"
               "'NoneType' object does not support item assignment")
  | Unreadable e => Raise e
  end.
End Request.

(** The arguments the views pass to [set_cookie]. *)
Record Cookie := {
  value : pyval;
  httponly : bool;
  secure : bool;
  samesite : string;
  max_age : Z
}.

(** What a response asks the client to do with a cookie name. *)
Inductive CookieWrite : Type :=
  | CookieSet (c : Cookie)
  | CookieDeleted.

(** A response: status, JSON body, and the cookie jar, keyed by cookie
    name, that [set_cookie] and [delete_cookie] write to. *)
Module Response.
Record t := mk {
  status_code : Z;
  data : gmap string pyval;
  cookies : gmap string CookieWrite
}.

(** [Response(data)]: the status defaults to 200 and no cookie is written. *)
Definition new (d : gmap string pyval) : t :=
  {| status_code := 200; data := d; cookies := ∅ |}.

(** [response.set_cookie(key=.., value=.., httponly=.., secure=..,
    samesite=.., max_age=..)] *)
Definition set_cookie (response : t) (key : string) (v : pyval)
    (httponly secure : bool) (samesite : string) (max_age : Z) : t :=
  {| status_code := status_code response;
     data := data response;
     cookies :=
       <[key := CookieSet {| value := v; httponly := httponly;
                             secure := secure; samesite := samesite;
                             max_age := max_age |}]> (cookies response) |}.

(** [response.delete_cookie(key)] *)
Definition delete_cookie (response : t) (key : string) : t :=
  {| status_code := status_code response;
     data := data response;
     cookies := <[key := CookieDeleted]> (cookies response) |}.

(** [response.data.pop(key, None)] *)
Definition data_pop (response : t) (key : string) : t :=
  {| status_code := status_code response;
     data := delete key (data response);
     cookies := cookies response |}.

(** [response.data[key] = value] *)
Definition data_setitem (response : t) (key : string) (v : pyval) : t :=
  {| status_code := status_code response;
     data := <[key := v]> (data response);
     cookies := cookies response |}.
End Response.

(** ** jwt_views.py *)

Module CookieTokenObtainPairView.
(** Lines 16-44: what [post] does with the parent's response. *)
Definition relay (settings : Settings) (response : Response.t) : Response.t :=
  if (Response.status_code response =? HTTPStatus_OK)%Z then
    let access_token := dict_get (Response.data response) "access" in
    let refresh_token := dict_get (Response.data response) "refresh" in
    let response :=
      if truthy access_token then
        Response.set_cookie response "access_token" access_token
          true (negb (DEBUG settings)) "Strict"
          (total_seconds (timedelta 0 60))
      else response in
    let response :=
      if truthy refresh_token then
        Response.set_cookie response "refresh_token" refresh_token
          true (negb (DEBUG settings)) "Strict"
          (total_seconds (timedelta 1 0))
      else response in
    let response := Response.data_pop response "access" in
    let response := Response.data_pop response "refresh" in
    let response := Response.data_setitem response "detail" (PStr "Login successful") in
    response
  else response.

(** [post]: [super_post] is [super().post]; an exception it raises
    propagates. *)
Definition post {St : Type} (settings : Settings)
    (super_post : Request.t -> M St Response.t)
    (request : Request.t) : M St Response.t :=
  response <- super_post request ;;
  ret (relay settings response).
End CookieTokenObtainPairView.

Module CookieTokenRefreshView.
(** Lines 51-54: the request as it stands when the parent is called, or the
    exception that line 54 raises.  Inside the [if refresh_token:] branch
    the cookie value is a [str]. *)
Definition forwarded (request : Request.t) : result Request.t :=
  let refresh_token := Request.COOKIES request !! "refresh_token" in
  if cookie_truthy refresh_token then
    match refresh_token with
    | Some tok => Request.data_setitem request "refresh" (PStr tok)
    | None => Return request
    end
  else Return request.

(** Lines 58-75: what [post] does with the parent's response. *)
Definition relay (settings : Settings) (response : Response.t) : Response.t :=
  if (Response.status_code response =? HTTPStatus_OK)%Z then
    let access_token := dict_get (Response.data response) "access" in
    let response :=
      if truthy access_token then
        Response.set_cookie response "access_token" access_token
          true (negb (DEBUG settings)) "Strict"
          (total_seconds (timedelta 0 60))
      else response in
    let response := Response.data_pop response "access" in
    let response := Response.data_setitem response "detail" (PStr "Token refreshed") in
    response
  else response.

Definition post {St : Type} (settings : Settings)
    (super_post : Request.t -> M St Response.t)
    (request : Request.t) : M St Response.t :=
  request <- lift (forwarded request) ;;
  response <- super_post request ;;
  ret (relay settings response).
End CookieTokenRefreshView.

Module CookieTokenVerifyView.
(** Lines 83-85: the request as it stands when the parent is called, or the
    exception that line 85 raises.  Inside the [if access_token:] branch
    the cookie value is a [str]. *)
Definition forwarded (request : Request.t) : result Request.t :=
  let access_token := Request.COOKIES request !! "access_token" in
  if cookie_truthy access_token then
    match access_token with
    | Some tok => Request.data_setitem request "token" (PStr tok)
    | None => Return request
    end
  else Return request.

Definition post {St : Type}
    (super_post : Request.t -> M St Response.t)
    (request : Request.t) : M St Response.t :=
  request <- lift (forwarded request) ;;
  super_post request.
End CookieTokenVerifyView.

(** ** authentication.py *)

Module CookieJWTAuthentication.
Section Authenticate.
Context {St User Token : Type}.
(** The parent's header-based [authenticate], [get_validated_token] and
    [get_user]. *)
Variable super_authenticate : Request.t -> M St (option (User * Token)).
Variable get_validated_token : string -> M St Token.
Variable get_user : Token -> M St User.

Definition authenticate (request : Request.t) : M St (option (User * Token)) :=
  let access_token := Request.COOKIES request !! "access_token" in
  if negb (cookie_truthy access_token) then
    super_authenticate request
  else
    match access_token with
    | Some tok =>
        try_except_else
          (validated_token <- get_validated_token tok ;;
           user <- get_user validated_token ;;
           ret (user, validated_token))
          is_InvalidToken
          (ret None)
          (fun '(user, validated_token) => ret (Some (user, validated_token)))
    | None => super_authenticate request
    end.
End Authenticate.
End CookieJWTAuthentication.

(** ** The framework's function views

    [@api_view] and [@permission_classes] come from the web framework.
    What they make of a function is the framework's request cycle: its
    checks, then the function for an allowed method, and its exception
    handler around both.  The checks that depend on the project's settings
    (content negotiation and versioning, the authentication classes, the
    throttles, the default permissions, the exception handler) are the
    fields of [Framework]. *)

(** [has_permission(request, view)], which reads [request.user]: [None] is
    the anonymous user. *)
Definition Permission (Identity : Type) : Type :=
  Request.t -> option Identity -> bool.

Definition AllowAny {Identity : Type} : Permission Identity :=
  fun _ _ => true.

Definition IsAuthenticated {Identity : Type} : Permission Identity :=
  fun _ user => match user with Some _ => true | None => false end.

Record Framework (St Identity : Type) := {
  perform_content_negotiation : Request.t -> M St unit;
  perform_authentication : Request.t -> M St (option Identity);
  check_throttles : Request.t -> M St unit;
  DEFAULT_PERMISSION_CLASSES : list (Permission Identity);
  options : Request.t -> M St Response.t;
  handle_exception : exn -> M St Response.t
}.
Arguments perform_content_negotiation {St Identity} _ _.
Arguments perform_authentication {St Identity} _ _.
Arguments check_throttles {St Identity} _ _.
Arguments DEFAULT_PERMISSION_CLASSES {St Identity} _.
Arguments options {St Identity} _ _.
Arguments handle_exception {St Identity} _ _.

(** A view function and the [permission_classes] attribute a decorator may
    have put on it. *)
Record ViewFunc (St Identity : Type) := {
  func : Request.t -> M St Response.t;
  func_permission_classes : option (list (Permission Identity))
}.
Arguments func {St Identity} _ _.
Arguments func_permission_classes {St Identity} _.

Section FunctionViews.
Context {St Identity : Type}.

(** A plain [def]. *)
Definition undecorated (f : Request.t -> M St Response.t) : ViewFunc St Identity :=
  {| func := f; func_permission_classes := None |}.

(** [@permission_classes(classes)] *)
Definition permission_classes (classes : list (Permission Identity))
    (f : ViewFunc St Identity) : ViewFunc St Identity :=
  {| func := func f; func_permission_classes := Some classes |}.

(** [permission_denied]: not authenticated for the anonymous user, denied
    for a known one. *)
Definition permission_denied (user : option Identity) : M St unit :=
  match user with
  | None =>
      raise (OtherException "NotAuthenticated"
               "Authentication credentials were not provided.")
  | Some _ =>
      raise (OtherException "PermissionDenied"
               "You do not have permission to perform this action.")
  end.

(** [check_permissions]: the first permission that refuses denies. *)
Fixpoint check_permissions (classes : list (Permission Identity))
    (request : Request.t) (user : option Identity) : M St unit :=
  match classes with
  | [] => ret tt
  | permission :: rest =>
      if permission request user then check_permissions rest request user
      else permission_denied user
  end.

(** [initial]: everything that runs before the handler. *)
Definition initial (fw : Framework St Identity)
    (classes : list (Permission Identity)) (request : Request.t) : M St unit :=
  _ <- perform_content_negotiation fw request ;;
  user <- perform_authentication fw request ;;
  _ <- check_permissions classes request user ;;
  check_throttles fw request.

(** [@api_view(http_method_names)]: the checks, then the function for a
    listed method, the framework's own answer to OPTIONS, and
    MethodNotAllowed (here with the method as its detail) for any other;
    whatever is raised goes to the exception handler. *)
Definition api_view (fw : Framework St Identity) (http_method_names : list string)
    (f : ViewFunc St Identity) (request : Request.t) : M St Response.t :=
  let classes :=
    match func_permission_classes f with
    | Some classes => classes
    | None => DEFAULT_PERMISSION_CLASSES fw
    end in
  try_except_as
    (_ <- initial fw classes request ;;
     if existsb (String.eqb (Request.method request)) http_method_names then
       func f request
     else if String.eqb (Request.method request) "OPTIONS" then
       options fw request
     else raise (OtherException "MethodNotAllowed" (Request.method request)))
    (handle_exception fw).
End FunctionViews.

(** ** views.py *)

(** Lines 42-47: the function [logout] before its decorators. *)
Definition logout_func {St : Type} (request : Request.t) : M St Response.t :=
  let response := Response.new {[ "detail" := PStr "Logged out" ]} in
  let response := Response.delete_cookie response "access_token" in
  let response := Response.delete_cookie response "refresh_token" in
  ret response.

(** Lines 40-47: [logout], the decorated view. *)
Definition logout {St Identity : Type} (fw : Framework St Identity)
    : Request.t -> M St Response.t :=
  api_view fw ["POST"] (permission_classes [AllowAny] (undecorated logout_func)).

Module UserViewSet.
Section Queryset.
Context {St User : Type}.
(** The rows of the user table in a server state, and the [id] column. *)
Variable User_objects : St -> list User.
Variable User_id : User -> Z.

(** [get_queryset]: [request_user_id] is [self.request.user.id], an [int]
    for a stored user and [None] for the anonymous user, for which the
    [assert isinstance(.., int)] fails; [filter(id=..)] keeps the rows whose
    [id] equals it. *)
Definition get_queryset (request_user_id : option Z) : M St (list User) :=
  match request_user_id with
  | Some uid =>
      fun st => (Return (filter (fun u => User_id u = uid) (User_objects st)), st)
  | None => raise (OtherException "AssertionError" EmptyString)
  end.
End Queryset.
End UserViewSet.

(** ** Test doubles for the token library and the framework

    Stand-ins for the parent views and the framework's settings, used to
    run the views on concrete requests. *)

(** A parent view that answers every request with [response] and leaves the
    server state alone. *)
Definition fixed_issuer (response : Response.t) : Request.t -> M unit Response.t :=
  fun _ st => (Return response, st).

(** A parent view that answers with [response] and logs the request it was
    handed; the log is the server state. *)
Definition recording_issuer (response : Response.t)
    : Request.t -> M (list Request.t) Response.t :=
  fun request log => (Return response, (log ++ [request])%list).

(** A parent view that raises [e] on every request. *)
Definition raising_issuer (e : exn) : Request.t -> M unit Response.t :=
  fun _ st => (Raise e, st).

(** A token validator that rejects every token. *)
Definition rejecting_validator : string -> M unit string :=
  fun _ st => (Raise (InvalidToken "Token is invalid or expired"), st).

(** A token validator that accepts every token. *)
Definition accepting_validator : string -> M unit string :=
  fun tok st => (Return tok, st).

(** User lookups: one that finds a user, one that finds the account disabled. *)
Definition found_user : string -> M unit string :=
  fun _ st => (Return "alice", st).

Definition inactive_user : string -> M unit string :=
  fun _ st => (Raise (AuthenticationFailed "User is inactive"), st).

(** Header-based authentication of a request whose Authorization header
    carries a bad bearer token, of one without the header, and of one with
    a good bearer token. *)
Definition header_rejects : Request.t -> M unit (option (string * string)) :=
  fun _ st => (Raise (InvalidToken "Given token not valid for any token type"), st).

Definition header_absent : Request.t -> M unit (option (string * string)) :=
  fun _ st => (Return None, st).

Definition header_accepts : Request.t -> M unit (option (string * string)) :=
  fun _ st => (Return (Some ("bob", "bearer")), st).

Definition production : Settings := {| DEBUG := false |}.

(** An exception handler in the framework's usual way: a failed
    authentication is answered 401, a method that is not allowed 405, a
    refused permission 403, each with the detail in the body; anything else
    is raised again. *)
Definition api_exception_handler (exc : exn) : M unit Response.t :=
  let answer (status : Z) (detail : string) : M unit Response.t :=
    ret {| Response.status_code := status;
           Response.data := {[ "detail" := PStr detail ]};
           Response.cookies := ∅ |} in
  match exc with
  | InvalidToken detail => answer 401 detail
  | AuthenticationFailed detail => answer 401 detail
  | OtherException cls detail =>
      if String.eqb cls "NotAuthenticated" then answer 401 detail
      else if String.eqb cls "MethodNotAllowed" then answer 405 detail
      else if String.eqb cls "PermissionDenied" then answer 403 detail
      else raise exc
  end.

(** A project whose only authentication class is the cookie authenticator,
    whose default permission is [IsAuthenticated], and which neither
    throttles nor refuses a content type. *)
Definition cookie_framework (get_user : string -> M unit string)
    : Framework unit (string * string) :=
  {| perform_content_negotiation := fun _ => ret tt;
     perform_authentication :=
       CookieJWTAuthentication.authenticate header_absent accepting_validator get_user;
     check_throttles := fun _ => ret tt;
     DEFAULT_PERMISSION_CLASSES := [IsAuthenticated];
     options := fun _ => ret (Response.new ∅);
     handle_exception := api_exception_handler |}.

(** ** Vocabulary of the properties *)

(** The cookie the relays write for a token [v] with lifetime [age]. *)
Definition token_cookie (settings : Settings) (v : pyval) (age : Z) : CookieWrite :=
  CookieSet {| value := v; httponly := true; secure := negb (DEBUG settings);
               samesite := "Strict"; max_age := age |}.

(** The attributes the specification fixes for a token cookie called [name]. *)
Definition token_cookie_attributes (settings : Settings) (name : string)
    (w : CookieWrite) : Prop :=
  exists c,
    w = CookieSet c /\
    httponly c = true /\
    secure c = negb (DEBUG settings) /\
    samesite c = "Strict" /\
    ((name = "access_token" /\ max_age c = 3600) \/
     (name = "refresh_token" /\ max_age c = 86400)).

(** ** Concrete requests and issuer responses *)

Definition login_request : Request.t :=
  {| Request.method := "POST";
     Request.COOKIES := ∅;
     Request.data := Request.Dict {[ "email" := PStr "alice@example.com";
                                     "password" := PStr "correct horse" ]} |}.

(** A successful issuance: both tokens in the body. *)
Definition issued_pair : Response.t :=
  {| Response.status_code := 200;
     Response.data := {[ "access" := PStr "a1"; "refresh" := PStr "r1" ]};
     Response.cookies := ∅ |}.

(** An OK response whose body carries an access token only. *)
Definition issued_access_only : Response.t :=
  {| Response.status_code := 200;
     Response.data := {[ "access" := PStr "a1" ]};
     Response.cookies := ∅ |}.

(** A rejected login. *)
Definition bad_credentials : Response.t :=
  {| Response.status_code := 401;
     Response.data :=
       {[ "detail" := PStr "No active account found with the given credentials" ]};
     Response.cookies := ∅ |}.

(** A refresh answered with a new access token and a rotated refresh token. *)
Definition rotated_pair : Response.t :=
  {| Response.status_code := 200;
     Response.data := {[ "access" := PStr "a2"; "refresh" := PStr "r2" ]};
     Response.cookies := ∅ |}.

(** A refresh request that carries the token in its cookie only; its empty
    body reads as an empty [dict]. *)
Definition refresh_request : Request.t :=
  {| Request.method := "POST";
     Request.COOKIES := {[ "refresh_token" := "r1" ]};
     Request.data := Request.Dict ∅ |}.

(** An OK response with an empty access token and no refresh token. *)
Definition issued_nothing : Response.t :=
  {| Response.status_code := 200;
     Response.data := {[ "access" := PStr EmptyString ]};
     Response.cookies := ∅ |}.

(** A refresh request whose JSON body already names a token. *)
Definition refresh_request_with_body : Request.t :=
  {| Request.method := "POST";
     Request.COOKIES := {[ "refresh_token" := "r1" ]};
     Request.data := Request.Dict {[ "refresh" := PStr "from-body" ]} |}.

(** A refresh request with an empty [refresh_token] cookie and a token in
    its JSON body. *)
Definition refresh_request_empty_cookie : Request.t :=
  {| Request.method := "POST";
     Request.COOKIES := {[ "refresh_token" := EmptyString ]};
     Request.data := Request.Dict {[ "refresh" := PStr "from-body" ]} |}.

(** A refresh request sent as a form, with the token in its cookie. *)
Definition refresh_request_form : Request.t :=
  {| Request.method := "POST";
     Request.COOKIES := {[ "refresh_token" := "r1" ]};
     Request.data := Request.QueryDict ∅ |}.

(** An empty OK answer, as the parent gives to a valid token. *)
Definition verified : Response.t :=
  {| Response.status_code := 200; Response.data := ∅; Response.cookies := ∅ |}.

Definition verify_request_with_body : Request.t :=
  {| Request.method := "POST";
     Request.COOKIES := {[ "access_token" := "a1" ]};
     Request.data := Request.Dict {[ "token" := PStr "from-body" ]} |}.

Definition verify_request_empty_cookie : Request.t :=
  {| Request.method := "POST";
     Request.COOKIES := {[ "access_token" := EmptyString ]};
     Request.data := Request.Dict {[ "token" := PStr "from-body" ]} |}.

(** A request that carries an expired access token in its cookie. *)
Definition request_with_expired_cookie : Request.t :=
  {| Request.method := "POST";
     Request.COOKIES := {[ "access_token" := "expired" ]};
     Request.data := Request.Dict ∅ |}.

(** A request that carries an empty [access_token] cookie. *)
Definition request_with_empty_cookie : Request.t :=
  {| Request.method := "POST";
     Request.COOKIES := {[ "access_token" := EmptyString ]};
     Request.data := Request.Dict {[ "token" := PStr "from-body" ]} |}.

(** A refresh answered with a new access token. *)
Definition refreshed_access : Response.t :=
  {| Response.status_code := 200;
     Response.data := {[ "access" := PStr "a2" ]};
     Response.cookies := ∅ |}.

(** A refresh rejected by the issuer. *)
Definition refresh_rejected : Response.t :=
  {| Response.status_code := 401;
     Response.data := {[ "detail" := PStr "Token is invalid or expired";
                         "code" := PStr "token_not_valid" ]};
     Response.cookies := ∅ |}.

(** An issuance whose response carries a field and a cookie of its own. *)
Definition issued_with_extras : Response.t :=
  {| Response.status_code := 200;
     Response.data := {[ "access" := PStr "a1"; "refresh" := PStr "r1";
                         "user_id" := PInt 7 ]};
     Response.cookies := {[ "csrftoken" := CookieDeleted ]} |}.

(** The request a client sends after it stored the cookies of [issued_pair]. *)
Definition request_after_login : Request.t :=
  {| Request.method := "POST";
     Request.COOKIES := {[ "access_token" := "a1"; "refresh_token" := "r1" ]};
     Request.data := Request.Dict ∅ |}.

(** A logout request from a client that holds no cookie. *)
Definition logout_request : Request.t :=
  {| Request.method := "POST";
     Request.COOKIES := ∅;
     Request.data := Request.Dict ∅ |}.

(** A user table: rows of [id] and email. *)
Definition user_table : list (Z * string) :=
  [ (1, "alice@example.com"); (2, "bob@example.com"); (3, "carol@example.com") ].

(** * Properties *)

(** ** Basic facts about the monad and the relays *)

Lemma bind_Return {St A B : Type} (m : M St A) (k : A -> M St B) st a st' :
  m st = (Return a, st') -> bind m k st = k a st'.
Proof. intros Hm. unfold bind. now rewrite Hm. Qed.

Lemma bind_Raise {St A B : Type} (m : M St A) (k : A -> M St B) st e st' :
  m st = (Raise e, st') -> bind m k st = (Raise e, st').
Proof. intros Hm. unfold bind. now rewrite Hm. Qed.

Lemma str_truthy_nonempty (s : string) : str_truthy s = true <-> s <> EmptyString.
Proof. destruct s; simpl; split; congruence. Qed.

Lemma dict_get_Some (d : gmap string pyval) (key : string) (v : pyval) :
  d !! key = Some v -> dict_get d key = v.
Proof. intros H. unfold dict_get. now rewrite H. Qed.

Lemma dict_get_falsy_when_missing (d : gmap string pyval) (key : string) :
  d !! key = None -> truthy (dict_get d key) = false.
Proof. intros H. unfold dict_get. now rewrite H. Qed.

Lemma obtain_post_Return {St : Type} settings
    (super_post : Request.t -> M St Response.t) request st response st' :
  super_post request st = (Return response, st') ->
  CookieTokenObtainPairView.post settings super_post request st
  = (Return (CookieTokenObtainPairView.relay settings response), st').
Proof.
  intros H. unfold CookieTokenObtainPairView.post.
  now rewrite (bind_Return _ _ _ _ _ H).
Qed.

Lemma refresh_post_Return {St : Type} settings
    (super_post : Request.t -> M St Response.t) request forwarded_request
    st response st' :
  CookieTokenRefreshView.forwarded request = Return forwarded_request ->
  super_post forwarded_request st = (Return response, st') ->
  CookieTokenRefreshView.post settings super_post request st
  = (Return (CookieTokenRefreshView.relay settings response), st').
Proof.
  intros Hf H. unfold CookieTokenRefreshView.post, lift, bind. rewrite Hf.
  now rewrite H.
Qed.

Lemma obtain_relay_not_ok settings response :
  Response.status_code response <> HTTPStatus_OK ->
  CookieTokenObtainPairView.relay settings response = response.
Proof.
  intros H. unfold CookieTokenObtainPairView.relay.
  destruct (Z.eqb_spec (Response.status_code response) HTTPStatus_OK); congruence.
Qed.

Lemma refresh_relay_not_ok settings response :
  Response.status_code response <> HTTPStatus_OK ->
  CookieTokenRefreshView.relay settings response = response.
Proof.
  intros H. unfold CookieTokenRefreshView.relay.
  destruct (Z.eqb_spec (Response.status_code response) HTTPStatus_OK); congruence.
Qed.

(** On an OK response the body loses both token fields and gains [detail]. *)
Lemma obtain_relay_ok_data settings response :
  Response.status_code response = HTTPStatus_OK ->
  Response.data (CookieTokenObtainPairView.relay settings response)
  = <["detail" := PStr "Login successful"]>
      (delete "refresh" (delete "access" (Response.data response))).
Proof.
  intros H. unfold CookieTokenObtainPairView.relay. rewrite H. simpl.
  destruct (truthy (dict_get _ "access")), (truthy (dict_get _ "refresh"));
    reflexivity.
Qed.

Lemma refresh_relay_ok_data settings response :
  Response.status_code response = HTTPStatus_OK ->
  Response.data (CookieTokenRefreshView.relay settings response)
  = <["detail" := PStr "Token refreshed"]> (delete "access" (Response.data response)).
Proof.
  intros H. unfold CookieTokenRefreshView.relay. rewrite H. simpl.
  destruct (truthy (dict_get _ "access")); reflexivity.
Qed.

Lemma obtain_relay_ok_cookies settings response :
  Response.status_code response = HTTPStatus_OK ->
  Response.cookies (CookieTokenObtainPairView.relay settings response)
  = let access_token := dict_get (Response.data response) "access" in
    let refresh_token := dict_get (Response.data response) "refresh" in
    let jar := Response.cookies response in
    let jar := if truthy access_token
               then <["access_token" := token_cookie settings access_token 3600]> jar
               else jar in
    if truthy refresh_token
    then <["refresh_token" := token_cookie settings refresh_token 86400]> jar
    else jar.
Proof.
  intros H. unfold CookieTokenObtainPairView.relay. rewrite H. simpl.
  destruct (truthy (dict_get _ "access")), (truthy (dict_get _ "refresh"));
    reflexivity.
Qed.

Lemma refresh_relay_ok_cookies settings response :
  Response.status_code response = HTTPStatus_OK ->
  Response.cookies (CookieTokenRefreshView.relay settings response)
  = let access_token := dict_get (Response.data response) "access" in
    if truthy access_token
    then <["access_token" := token_cookie settings access_token 3600]>
           (Response.cookies response)
    else Response.cookies response.
Proof.
  intros H. unfold CookieTokenRefreshView.relay. rewrite H. simpl.
  destruct (truthy (dict_get _ "access")); reflexivity.
Qed.

(** ** Issuance *)

(** C1 (as amended).  When the parent's response to an issuance request has
    status OK, the returned body has neither an [access] nor a [refresh]
    field and has [detail] equal to "Login successful"; and for each of the
    two fields that holds a non-empty (truthy) value in the parent's body,
    the matching cookie ([access_token], [refresh_token]) is set with
    httpOnly true and sameSite Strict and holds that value. *)
Theorem issue_ok_moves_tokens_to_cookies {St : Type} settings
    (super_post : Request.t -> M St Response.t) request st response st' :
  super_post request st = (Return response, st') ->
  Response.status_code response = HTTPStatus_OK ->
  exists response',
    CookieTokenObtainPairView.post settings super_post request st
    = (Return response', st') /\
    Response.data response' !! "access" = None /\
    Response.data response' !! "refresh" = None /\
    Response.data response' !! "detail" = Some (PStr "Login successful") /\
    (forall v, Response.data response !! "access" = Some v -> truthy v = true ->
       exists c, Response.cookies response' !! "access_token" = Some (CookieSet c) /\
                 value c = v /\ httponly c = true /\ samesite c = "Strict") /\
    (forall v, Response.data response !! "refresh" = Some v -> truthy v = true ->
       exists c, Response.cookies response' !! "refresh_token" = Some (CookieSet c) /\
                 value c = v /\ httponly c = true /\ samesite c = "Strict").
Proof.
  intros Hsuper Hok.
  exists (CookieTokenObtainPairView.relay settings response).
  split; [now apply obtain_post_Return|].
  rewrite obtain_relay_ok_data, obtain_relay_ok_cookies by assumption.
  repeat split.
  - rewrite lookup_insert_ne by discriminate.
    rewrite lookup_delete_ne by discriminate. apply lookup_delete_eq.
  - rewrite lookup_insert_ne by discriminate. apply lookup_delete_eq.
  - apply lookup_insert_eq.
  - intros v Hv Ht. cbv zeta.
    rewrite (dict_get_Some _ _ _ Hv), Ht.
    eexists. split.
    { destruct (truthy (dict_get (Response.data response) "refresh"));
        [rewrite lookup_insert_ne by discriminate|]; apply lookup_insert_eq. }
    repeat split.
  - intros v Hv Ht. cbv zeta.
    rewrite (dict_get_Some _ _ _ Hv), Ht.
    eexists. split; [apply lookup_insert_eq|]. repeat split.
Qed.

Lemma issue_ok_moves_tokens_to_cookies_witness :
  fixed_issuer issued_pair login_request tt = (Return issued_pair, tt) /\
  Response.status_code issued_pair = HTTPStatus_OK /\
  exists response' ca cr,
    CookieTokenObtainPairView.post production (fixed_issuer issued_pair)
      login_request tt = (Return response', tt) /\
    Response.data response' !! "access" = None /\
    Response.data response' !! "refresh" = None /\
    Response.data response' !! "detail" = Some (PStr "Login successful") /\
    (Response.cookies response' !! "access_token" = Some (CookieSet ca) /\
     value ca = PStr "a1" /\ httponly ca = true /\ samesite ca = "Strict") /\
    (Response.cookies response' !! "refresh_token" = Some (CookieSet cr) /\
     value cr = PStr "r1" /\ httponly cr = true /\ samesite cr = "Strict").
Proof.
  split; [reflexivity|]. split; [reflexivity|].
  destruct (issue_ok_moves_tokens_to_cookies production (fixed_issuer issued_pair)
              login_request tt issued_pair tt eq_refl eq_refl)
    as (response' & Hpost & Hda & Hdr & Hdd & Ha & Hr).
  destruct (Ha (PStr "a1") eq_refl eq_refl) as (ca & Hca).
  destruct (Hr (PStr "r1") eq_refl eq_refl) as (cr & Hcr).
  exists response', ca, cr. repeat split; try assumption; try apply Hca; apply Hcr.
Defined.

(** C1 as stated fails: the parent answers OK with an access token and no
    refresh token; the view returns normally and sets no [refresh_token]
    cookie. *)
Lemma issue_ok_without_refresh_sets_one_cookie :
  fixed_issuer issued_access_only login_request tt = (Return issued_access_only, tt) /\
  Response.status_code issued_access_only = HTTPStatus_OK /\
  exists response',
    CookieTokenObtainPairView.post production (fixed_issuer issued_access_only)
      login_request tt = (Return response', tt) /\
    Response.cookies response' !! "refresh_token" = None.
Proof.
  split; [reflexivity|]. split; [reflexivity|].
  eexists. split; [reflexivity|]. vm_compute. reflexivity.
Qed.

(** C4.  When the parent's response to an issuance request has a status other
    than OK, the view returns that very response: same body, same status,
    and the cookie jar as the parent left it. *)
Theorem issue_failure_passes_through {St : Type} settings
    (super_post : Request.t -> M St Response.t) request st response st' :
  super_post request st = (Return response, st') ->
  Response.status_code response <> HTTPStatus_OK ->
  exists response',
    CookieTokenObtainPairView.post settings super_post request st
    = (Return response', st') /\
    response' = response /\
    Response.data response' = Response.data response /\
    Response.status_code response' = Response.status_code response /\
    Response.cookies response' = Response.cookies response.
Proof.
  intros Hsuper Hko. exists response.
  rewrite (obtain_post_Return _ _ _ _ _ _ Hsuper).
  rewrite obtain_relay_not_ok by assumption.
  repeat split.
Qed.

Lemma issue_failure_passes_through_witness :
  fixed_issuer bad_credentials login_request tt = (Return bad_credentials, tt) /\
  Response.status_code bad_credentials <> HTTPStatus_OK /\
  exists response',
    CookieTokenObtainPairView.post production (fixed_issuer bad_credentials)
      login_request tt = (Return response', tt) /\
    response' = bad_credentials /\
    Response.data response' = Response.data bad_credentials /\
    Response.status_code response' = Response.status_code bad_credentials /\
    Response.cookies response' = Response.cookies bad_credentials.
Proof.
  split; [reflexivity|]. split; [discriminate|].
  apply (issue_failure_passes_through production (fixed_issuer bad_credentials)
           login_request tt bad_credentials tt); [reflexivity|discriminate].
Defined.

(** ** Cookie attributes *)

Lemma token_cookie_access settings v :
  token_cookie_attributes settings "access_token" (token_cookie settings v 3600).
Proof. eexists. split; [reflexivity|]. repeat split. now left. Qed.

Lemma token_cookie_refresh settings v :
  token_cookie_attributes settings "refresh_token" (token_cookie settings v 86400).
Proof. eexists. split; [reflexivity|]. repeat split. now right. Qed.

(** Every entry of the jar that the issuance relay changed is a token cookie. *)
Lemma obtain_relay_written settings response name w :
  Response.cookies (CookieTokenObtainPairView.relay settings response) !! name = Some w ->
  Response.cookies response !! name <> Some w ->
  token_cookie_attributes settings name w.
Proof.
  destruct (Z.eq_dec (Response.status_code response) HTTPStatus_OK) as [Hok|Hko].
  - rewrite obtain_relay_ok_cookies by assumption. cbv zeta.
    intros Hw Hneq.
    destruct (decide (name = "access_token")) as [->|Ha];
      [|destruct (decide (name = "refresh_token")) as [->|Hr]];
      destruct (truthy (dict_get (Response.data response) "access")),
               (truthy (dict_get (Response.data response) "refresh"));
      simplify_map_eq;
      auto using token_cookie_access, token_cookie_refresh.
  - rewrite obtain_relay_not_ok by assumption. congruence.
Qed.

(** Every entry of the jar that the refresh relay changed is a token cookie. *)
Lemma refresh_relay_written settings response name w :
  Response.cookies (CookieTokenRefreshView.relay settings response) !! name = Some w ->
  Response.cookies response !! name <> Some w ->
  token_cookie_attributes settings name w.
Proof.
  destruct (Z.eq_dec (Response.status_code response) HTTPStatus_OK) as [Hok|Hko].
  - rewrite refresh_relay_ok_cookies by assumption. cbv zeta.
    intros Hw Hneq.
    destruct (decide (name = "access_token")) as [->|Ha];
      destruct (truthy (dict_get (Response.data response) "access"));
      simplify_map_eq;
      auto using token_cookie_access.
  - rewrite refresh_relay_not_ok by assumption. congruence.
Qed.

(** C7.  Whatever the parent answers (to the request as Issue got it, to
    the request Refresh forwards), every cookie that Issue or Refresh
    writes on the response (an entry of the returned jar that the parent's
    response did not already hold) is set with httpOnly true, secure equal to
    the negation of DEBUG, sameSite Strict, and max-age 3600 under the name
    [access_token] or 86400 under the name [refresh_token]. *)
Theorem relay_cookies_have_fixed_attributes {St : Type} settings
    (super_post : Request.t -> M St Response.t) request st response st' name w :
  Response.cookies response !! name <> Some w ->
  (super_post request st = (Return response, st') ->
   forall response' st'',
     CookieTokenObtainPairView.post settings super_post request st
     = (Return response', st'') ->
     Response.cookies response' !! name = Some w ->
     token_cookie_attributes settings name w) /\
  (forall forwarded_request,
   CookieTokenRefreshView.forwarded request = Return forwarded_request ->
   super_post forwarded_request st = (Return response, st') ->
   forall response' st'',
     CookieTokenRefreshView.post settings super_post request st
     = (Return response', st'') ->
     Response.cookies response' !! name = Some w ->
     token_cookie_attributes settings name w).
Proof.
  intros Hnew. split.
  - intros Hsuper response' st'' Hpost Hw.
    rewrite (obtain_post_Return _ _ _ _ _ _ Hsuper) in Hpost.
    injection Hpost as <- <-. eauto using obtain_relay_written.
  - intros forwarded_request Hforwarded Hsuper response' st'' Hpost Hw.
    rewrite (refresh_post_Return _ _ _ _ _ _ _ Hforwarded Hsuper) in Hpost.
    injection Hpost as <- <-. eauto using refresh_relay_written.
Qed.

Lemma relay_cookies_have_fixed_attributes_witness :
  let w := token_cookie production (PStr "a1") 3600 in
  Response.cookies issued_pair !! "access_token" <> Some w /\
  fixed_issuer issued_pair login_request tt = (Return issued_pair, tt) /\
  CookieTokenObtainPairView.post production (fixed_issuer issued_pair) login_request tt
  = (Return (CookieTokenObtainPairView.relay production issued_pair), tt) /\
  Response.cookies (CookieTokenObtainPairView.relay production issued_pair)
    !! "access_token" = Some w /\
  token_cookie_attributes production "access_token" w.
Proof.
  intros w.
  assert (Hnew : Response.cookies issued_pair !! "access_token" <> Some w)
    by discriminate.
  split; [exact Hnew|]. split; [reflexivity|]. split; [reflexivity|].
  split; [reflexivity|].
  refine (proj1 (relay_cookies_have_fixed_attributes production
                   (fixed_issuer issued_pair) login_request tt issued_pair tt
                   "access_token" w Hnew) _ _ tt _ _); reflexivity.
Defined.

(** ** Token fields the parent leaves out *)

(** C10.  When the parent's response to an Issue or a Refresh request has
    status OK and the value of an expected token field is missing or falsy
    (absent, null, empty string), the view returns normally, leaves the jar
    entry of that token's cookie as the parent left it, removes the
    operation's token fields from the body ([access] and [refresh] for
    Issue, [access] for Refresh) and sets [detail] to the success message. *)
Theorem ok_without_token_sets_no_cookie {St : Type} settings
    (super_post : Request.t -> M St Response.t) request st response st' :
  Response.status_code response = HTTPStatus_OK ->
  (super_post request st = (Return response, st') ->
   exists response',
     CookieTokenObtainPairView.post settings super_post request st
     = (Return response', st') /\
     (truthy (dict_get (Response.data response) "access") = false ->
      Response.cookies response' !! "access_token"
      = Response.cookies response !! "access_token") /\
     (truthy (dict_get (Response.data response) "refresh") = false ->
      Response.cookies response' !! "refresh_token"
      = Response.cookies response !! "refresh_token") /\
     Response.data response' !! "access" = None /\
     Response.data response' !! "refresh" = None /\
     Response.data response' !! "detail" = Some (PStr "Login successful")) /\
  (forall forwarded_request,
   CookieTokenRefreshView.forwarded request = Return forwarded_request ->
   super_post forwarded_request st = (Return response, st') ->
   exists response',
     CookieTokenRefreshView.post settings super_post request st
     = (Return response', st') /\
     (truthy (dict_get (Response.data response) "access") = false ->
      Response.cookies response' = Response.cookies response) /\
     Response.data response' !! "access" = None /\
     Response.data response' !! "detail" = Some (PStr "Token refreshed")).
Proof.
  intros Hok. split; [intros Hsuper|intros forwarded_request Hforwarded Hsuper].
  - exists (CookieTokenObtainPairView.relay settings response).
    split; [now apply obtain_post_Return|].
    rewrite obtain_relay_ok_data, obtain_relay_ok_cookies by assumption.
    cbv zeta. repeat split.
    + intros ->.
      destruct (truthy (dict_get (Response.data response) "refresh"));
        [now rewrite lookup_insert_ne by discriminate|reflexivity].
    + intros ->.
      destruct (truthy (dict_get (Response.data response) "access"));
        [now rewrite lookup_insert_ne by discriminate|reflexivity].
    + now simplify_map_eq.
    + now simplify_map_eq.
    + now simplify_map_eq.
  - exists (CookieTokenRefreshView.relay settings response).
    split; [now apply (refresh_post_Return _ _ _ forwarded_request)|].
    rewrite refresh_relay_ok_data, refresh_relay_ok_cookies by assumption.
    cbv zeta. repeat split.
    + now intros ->.
    + now simplify_map_eq.
    + now simplify_map_eq.
Qed.

Lemma ok_without_token_sets_no_cookie_witness :
  Response.status_code issued_nothing = HTTPStatus_OK /\
  fixed_issuer issued_nothing login_request tt = (Return issued_nothing, tt) /\
  truthy (dict_get (Response.data issued_nothing) "access") = false /\
  truthy (dict_get (Response.data issued_nothing) "refresh") = false /\
  exists response',
    CookieTokenObtainPairView.post production (fixed_issuer issued_nothing)
      login_request tt = (Return response', tt) /\
    Response.cookies response' !! "access_token" = None /\
    Response.cookies response' !! "refresh_token" = None /\
    Response.data response' !! "access" = None /\
    Response.data response' !! "refresh" = None /\
    Response.data response' !! "detail" = Some (PStr "Login successful").
Proof.
  repeat (split; [reflexivity|]).
  destruct (proj1 (ok_without_token_sets_no_cookie production
                     (fixed_issuer issued_nothing) login_request tt
                     issued_nothing tt eq_refl) eq_refl)
    as (response' & Hpost & Ha & Hr & Hda & Hdr & Hdd).
  exists response'. split; [exact Hpost|].
  split; [exact (Ha eq_refl)|]. split; [exact (Hr eq_refl)|].
  repeat split; assumption.
Defined.

(** ** Raw tokens in the body *)

(** The issuance relay leaves no token field in an OK body. *)
Lemma issue_body_has_no_token_field settings response key :
  Response.status_code response = HTTPStatus_OK ->
  key = "access" \/ key = "refresh" ->
  Response.data (CookieTokenObtainPairView.relay settings response) !! key = None.
Proof.
  intros Hok Hkey. rewrite obtain_relay_ok_data by assumption.
  destruct Hkey as [-> | ->]; now simplify_map_eq.
Qed.

(** The refresh relay removes [access]; every other field of the parent's
    body except [detail] stays where it was. *)
Lemma refresh_body_keeps_other_fields settings response key :
  Response.status_code response = HTTPStatus_OK ->
  key <> "access" -> key <> "detail" ->
  Response.data (CookieTokenRefreshView.relay settings response) !! key
  = Response.data response !! key.
Proof.
  intros Hok Ha Hd. rewrite refresh_relay_ok_data by assumption.
  now simplify_map_eq.
Qed.

(** C2 (the code departs from the claim).  A refresh that the parent answers
    with a new access token and a rotated refresh token: the view moves the
    access token into a cookie, but the rotated refresh token stays in the
    returned body and no [refresh_token] cookie is written. *)
Theorem refresh_leaves_rotated_token_in_body :
  exists response',
    CookieTokenRefreshView.post production (fixed_issuer rotated_pair)
      refresh_request tt = (Return response', tt) /\
    Response.data response' !! "access" = None /\
    Response.data response' !! "refresh" = Some (PStr "r2") /\
    Response.cookies response' !! "access_token"
    = Some (token_cookie production (PStr "a2") 3600) /\
    Response.cookies response' !! "refresh_token" = None.
Proof.
  eexists. split; [reflexivity|]. vm_compute. repeat split.
Qed.

(** ** Refresh: what the parent is handed *)

Lemma cookie_truthy_Some (tok : string) :
  tok <> EmptyString -> cookie_truthy (Some tok) = true.
Proof. intros H. simpl. now apply str_truthy_nonempty. Qed.

(** A [dict] body takes the assignment. *)
Lemma data_setitem_Dict request fields key v :
  Request.data request = Request.Dict fields ->
  Request.data_setitem request key v
  = Return {| Request.method := Request.method request;
              Request.COOKIES := Request.COOKIES request;
              Request.data := Request.Dict (<[key := v]> fields) |}.
Proof. intros H. unfold Request.data_setitem. now rewrite H. Qed.

(** Any other body refuses it, and the request is not handed on. *)
Lemma data_setitem_Return request key v request' :
  Request.data_setitem request key v = Return request' ->
  exists fields,
    Request.data request = Request.Dict fields /\
    Request.data request' = Request.Dict (<[key := v]> fields) /\
    Request.COOKIES request' = Request.COOKIES request /\
    Request.method request' = Request.method request.
Proof.
  unfold Request.data_setitem.
  destruct (Request.data request) as [fields| | | | | | |]; try discriminate.
  intros [= <-]. now exists fields.
Qed.

Lemma refresh_forwarded_unchanged request :
  Request.COOKIES request !! "refresh_token" = None \/
  Request.COOKIES request !! "refresh_token" = Some EmptyString ->
  CookieTokenRefreshView.forwarded request = Return request.
Proof.
  intros H. unfold CookieTokenRefreshView.forwarded.
  destruct H as [-> | ->]; reflexivity.
Qed.

Lemma verify_forwarded_unchanged request :
  Request.COOKIES request !! "access_token" = None \/
  Request.COOKIES request !! "access_token" = Some EmptyString ->
  CookieTokenVerifyView.forwarded request = Return request.
Proof.
  intros H. unfold CookieTokenVerifyView.forwarded.
  destruct H as [-> | ->]; reflexivity.
Qed.

Lemma refresh_forwarded_with_cookie request tok :
  Request.COOKIES request !! "refresh_token" = Some tok ->
  tok <> EmptyString ->
  CookieTokenRefreshView.forwarded request
  = Request.data_setitem request "refresh" (PStr tok).
Proof.
  intros Hcookie Htok. unfold CookieTokenRefreshView.forwarded.
  now rewrite Hcookie, (cookie_truthy_Some _ Htok).
Qed.

Lemma verify_forwarded_with_cookie request tok :
  Request.COOKIES request !! "access_token" = Some tok ->
  tok <> EmptyString ->
  CookieTokenVerifyView.forwarded request
  = Request.data_setitem request "token" (PStr tok).
Proof.
  intros Hcookie Htok. unfold CookieTokenVerifyView.forwarded.
  now rewrite Hcookie, (cookie_truthy_Some _ Htok).
Qed.

(** C5 (as amended).  When the [refresh_token] cookie of a Refresh request
    is present and non-empty and the request body is a [dict] (a JSON
    object), the parent is called on a request whose body is the one that
    came with the cookie's value under [refresh], whatever the body held
    there, every other field, the cookies and the method unchanged; when the
    cookie is absent or empty the parent is called on the request as it
    came, whatever its body. *)
Theorem refresh_forwards_cookie_token {St : Type} settings
    (super_post : Request.t -> M St Response.t) request st :
  (forall tok fields,
     Request.COOKIES request !! "refresh_token" = Some tok ->
     tok <> EmptyString ->
     Request.data request = Request.Dict fields ->
     exists request',
       CookieTokenRefreshView.post settings super_post request st
       = bind (super_post request')
              (fun response => ret (CookieTokenRefreshView.relay settings response)) st /\
       Request.data request' = Request.Dict (<["refresh" := PStr tok]> fields) /\
       Request.COOKIES request' = Request.COOKIES request /\
       Request.method request' = Request.method request) /\
  (Request.COOKIES request !! "refresh_token" = None \/
   Request.COOKIES request !! "refresh_token" = Some EmptyString ->
   CookieTokenRefreshView.post settings super_post request st
   = bind (super_post request)
          (fun response => ret (CookieTokenRefreshView.relay settings response)) st).
Proof.
  split.
  - intros tok fields Hcookie Htok Hbody.
    exists {| Request.method := Request.method request;
              Request.COOKIES := Request.COOKIES request;
              Request.data := Request.Dict (<["refresh" := PStr tok]> fields) |}.
    split; [|repeat split].
    unfold CookieTokenRefreshView.post.
    rewrite (refresh_forwarded_with_cookie _ _ Hcookie Htok).
    rewrite (data_setitem_Dict _ _ _ _ Hbody). reflexivity.
  - intros Hcookie. unfold CookieTokenRefreshView.post.
    now rewrite (refresh_forwarded_unchanged _ Hcookie).
Qed.

Lemma refresh_forwards_cookie_token_witness :
  Request.COOKIES refresh_request_with_body !! "refresh_token" = Some "r1" /\
  "r1" <> EmptyString /\
  Request.data refresh_request_with_body
  = Request.Dict {[ "refresh" := PStr "from-body" ]} /\
  exists request',
    CookieTokenRefreshView.post production (recording_issuer rotated_pair)
      refresh_request_with_body []
    = bind (recording_issuer rotated_pair request')
           (fun response => ret (CookieTokenRefreshView.relay production response)) [] /\
    Request.data request'
    = Request.Dict (<["refresh" := PStr "r1"]> {[ "refresh" := PStr "from-body" ]}) /\
    Request.COOKIES request' = Request.COOKIES refresh_request_with_body /\
    Request.method request' = Request.method refresh_request_with_body.
Proof.
  split; [reflexivity|]. split; [discriminate|]. split; [reflexivity|].
  apply (proj1 (refresh_forwards_cookie_token production
                  (recording_issuer rotated_pair) refresh_request_with_body []));
    [reflexivity|discriminate|reflexivity].
Defined.

(** C5 as stated fails: the cookie is present with the empty string as its
    value; the parent is handed the body's own [refresh] value, not the
    cookie's. *)
Lemma refresh_empty_cookie_not_forwarded :
  Request.COOKIES refresh_request_empty_cookie !! "refresh_token" = Some EmptyString /\
  exists seen fields,
    snd (CookieTokenRefreshView.post production (recording_issuer rotated_pair)
           refresh_request_empty_cookie []) = [seen] /\
    Request.data seen = Request.Dict fields /\
    fields !! "refresh" = Some (PStr "from-body") /\
    fields !! "refresh" <> Some (PStr EmptyString).
Proof.
  split; [reflexivity|].
  eexists _, _. split; [reflexivity|]. split; [reflexivity|].
  split; [reflexivity|]. discriminate.
Qed.

(** ** Verify *)

(** C6 (as amended).  When the [access_token] cookie of a Verify request is
    present and non-empty and the request body is a [dict] (a JSON object),
    the parent is called on a request whose body is the one that came with
    the cookie's value under [token], whatever the body held there, every
    other field, the cookies and the method unchanged; when the cookie is
    absent or empty the parent is called on the request as it came,
    whatever its body.  Whenever the parent is called, the view's outcome
    is the parent's outcome itself: the same response or the same
    exception, and the same state. *)
Theorem verify_forwards_cookie_token {St : Type}
    (super_post : Request.t -> M St Response.t) request st :
  (forall tok fields,
     Request.COOKIES request !! "access_token" = Some tok ->
     tok <> EmptyString ->
     Request.data request = Request.Dict fields ->
     exists request',
       CookieTokenVerifyView.post super_post request st = super_post request' st /\
       Request.data request' = Request.Dict (<["token" := PStr tok]> fields) /\
       Request.COOKIES request' = Request.COOKIES request /\
       Request.method request' = Request.method request) /\
  (Request.COOKIES request !! "access_token" = None \/
   Request.COOKIES request !! "access_token" = Some EmptyString ->
   CookieTokenVerifyView.post super_post request st = super_post request st) /\
  (forall forwarded_request,
     CookieTokenVerifyView.forwarded request = Return forwarded_request ->
     CookieTokenVerifyView.post super_post request st
     = super_post forwarded_request st).
Proof.
  split; [|split].
  - intros tok fields Hcookie Htok Hbody.
    exists {| Request.method := Request.method request;
              Request.COOKIES := Request.COOKIES request;
              Request.data := Request.Dict (<["token" := PStr tok]> fields) |}.
    split; [|repeat split].
    unfold CookieTokenVerifyView.post.
    rewrite (verify_forwarded_with_cookie _ _ Hcookie Htok).
    rewrite (data_setitem_Dict _ _ _ _ Hbody). reflexivity.
  - intros Hcookie. unfold CookieTokenVerifyView.post.
    now rewrite (verify_forwarded_unchanged _ Hcookie).
  - intros forwarded_request Hforwarded. unfold CookieTokenVerifyView.post.
    now rewrite Hforwarded.
Qed.

Lemma verify_forwards_cookie_token_witness :
  Request.COOKIES verify_request_with_body !! "access_token" = Some "a1" /\
  "a1" <> EmptyString /\
  Request.data verify_request_with_body
  = Request.Dict {[ "token" := PStr "from-body" ]} /\
  exists request',
    CookieTokenVerifyView.post (recording_issuer verified) verify_request_with_body []
    = recording_issuer verified request' [] /\
    Request.data request'
    = Request.Dict (<["token" := PStr "a1"]> {[ "token" := PStr "from-body" ]}) /\
    Request.COOKIES request' = Request.COOKIES verify_request_with_body /\
    Request.method request' = Request.method verify_request_with_body.
Proof.
  split; [reflexivity|]. split; [discriminate|]. split; [reflexivity|].
  apply (proj1 (verify_forwards_cookie_token (recording_issuer verified)
                  verify_request_with_body []));
    [reflexivity|discriminate|reflexivity].
Defined.

(** C6 as stated fails: the cookie is present with the empty string as its
    value; the parent is handed the body's own [token] value, not the
    cookie's. *)
Lemma verify_empty_cookie_not_injected :
  Request.COOKIES verify_request_empty_cookie !! "access_token" = Some EmptyString /\
  exists seen fields,
    snd (CookieTokenVerifyView.post (recording_issuer verified)
           verify_request_empty_cookie []) = [seen] /\
    Request.data seen = Request.Dict fields /\
    fields !! "token" = Some (PStr "from-body") /\
    fields !! "token" <> Some (PStr EmptyString).
Proof.
  split; [reflexivity|].
  eexists _, _. split; [reflexivity|]. split; [reflexivity|].
  split; [reflexivity|]. discriminate.
Qed.

(** ** The cookie authenticator *)

Section Authenticator.
Context {St User Token : Type}.
Variable super_authenticate : Request.t -> M St (option (User * Token)).
Variable get_validated_token : string -> M St Token.
Variable get_user : Token -> M St User.

Local Abbreviation authenticate :=
  (CookieJWTAuthentication.authenticate super_authenticate get_validated_token get_user).

(** With a non-empty cookie the outcome is that of the guarded block. *)
Lemma authenticate_with_cookie request tok :
  Request.COOKIES request !! "access_token" = Some tok ->
  tok <> EmptyString ->
  authenticate request
  = try_except_else
      (validated_token <- get_validated_token tok ;;
       user <- get_user validated_token ;;
       ret (user, validated_token))
      is_InvalidToken (ret None)
      (fun '(user, validated_token) => ret (Some (user, validated_token))).
Proof.
  intros Hcookie Htok.
  unfold authenticate, CookieJWTAuthentication.authenticate.
  now rewrite Hcookie, (cookie_truthy_Some _ Htok).
Qed.

(** Without a usable cookie the outcome is the header-based one. *)
Lemma authenticate_falls_back request :
  Request.COOKIES request !! "access_token" = None \/
  Request.COOKIES request !! "access_token" = Some EmptyString ->
  authenticate request = super_authenticate request.
Proof.
  intros H. unfold authenticate, CookieJWTAuthentication.authenticate.
  destruct H as [-> | ->]; reflexivity.
Qed.

(** C3 (as amended).  For a request whose [access_token] cookie is present
    and non-empty: if validation of the token raises InvalidToken,
    [authenticate] returns no identity and raises nothing; if validation or
    user resolution raises anything that is not an InvalidToken, that
    exception reaches the caller; an InvalidToken raised by user resolution
    is swallowed the same way; and when both succeed the pair of user and
    validated token is returned. *)
Theorem authenticate_swallows_only_invalid_token request tok st :
  Request.COOKIES request !! "access_token" = Some tok ->
  tok <> EmptyString ->
  (forall detail st1,
     get_validated_token tok st = (Raise (InvalidToken detail), st1) ->
     authenticate request st = (Return None, st1)) /\
  (forall e st1,
     get_validated_token tok st = (Raise e, st1) ->
     is_InvalidToken e = false ->
     authenticate request st = (Raise e, st1)) /\
  (forall validated_token st1 e st2,
     get_validated_token tok st = (Return validated_token, st1) ->
     get_user validated_token st1 = (Raise e, st2) ->
     authenticate request st
     = if is_InvalidToken e then (Return None, st2) else (Raise e, st2)) /\
  (forall validated_token st1 user st2,
     get_validated_token tok st = (Return validated_token, st1) ->
     get_user validated_token st1 = (Return user, st2) ->
     authenticate request st = (Return (Some (user, validated_token)), st2)).
Proof.
  intros Hcookie Htok.
  rewrite (authenticate_with_cookie _ _ Hcookie Htok).
  unfold try_except_else, bind, ret.
  repeat split.
  - intros detail st1 Hv. now rewrite Hv.
  - intros e st1 Hv He. now rewrite Hv, He.
  - intros vt st1 e st2 Hv Hu. rewrite Hv, Hu. now destruct (is_InvalidToken e).
  - intros vt st1 user st2 Hv Hu. now rewrite Hv, Hu.
Qed.

End Authenticator.

Lemma authenticate_swallows_only_invalid_token_witness :
  Request.COOKIES request_with_expired_cookie !! "access_token" = Some "expired" /\
  "expired" <> EmptyString /\
  rejecting_validator "expired" tt
  = (Raise (InvalidToken "Token is invalid or expired"), tt) /\
  CookieJWTAuthentication.authenticate header_rejects rejecting_validator found_user
    request_with_expired_cookie tt = (Return None, tt) /\
  CookieJWTAuthentication.authenticate header_rejects accepting_validator inactive_user
    request_with_expired_cookie tt
  = (Raise (AuthenticationFailed "User is inactive"), tt).
Proof.
  assert (Hne : "expired" <> EmptyString) by discriminate.
  split; [reflexivity|]. split; [exact Hne|]. split; [reflexivity|]. split.
  - exact (proj1 (authenticate_swallows_only_invalid_token header_rejects
                    rejecting_validator found_user request_with_expired_cookie
                    "expired" tt eq_refl Hne) _ tt eq_refl).
  - exact (proj1 (proj2 (proj2 (authenticate_swallows_only_invalid_token
                    header_rejects accepting_validator inactive_user
                    request_with_expired_cookie "expired" tt eq_refl Hne)))
             "expired" tt _ tt eq_refl eq_refl).
Defined.

(** C3 as stated fails: the request carries an [access_token] cookie whose
    value, the empty string, the validator rejects as invalid, and a bad
    bearer token in its Authorization header; [authenticate] never validates
    the cookie, takes the header path, and the InvalidToken raised there
    reaches the caller. *)
Lemma authenticate_empty_cookie_surfaces_error :
  Request.COOKIES request_with_empty_cookie !! "access_token" = Some EmptyString /\
  rejecting_validator EmptyString tt
  = (Raise (InvalidToken "Token is invalid or expired"), tt) /\
  CookieJWTAuthentication.authenticate header_rejects rejecting_validator found_user
    request_with_empty_cookie tt
  = (Raise (InvalidToken "Given token not valid for any token type"), tt) /\
  CookieJWTAuthentication.authenticate header_rejects rejecting_validator found_user
    request_with_empty_cookie tt
  <> (Return None, tt).
Proof.
  split; [reflexivity|]. split; [reflexivity|]. split; [reflexivity|].
  discriminate.
Qed.

(** C9.  When the [access_token] cookie is present with the empty string as
    its value, [authenticate] returns the outcome of header-based
    resolution, as it does for a request without the cookie, and Verify hands
    the parent the request as it came, with nothing injected into the body. *)
Theorem empty_access_cookie_counts_as_absent {St User Token : Type}
    (super_authenticate : Request.t -> M St (option (User * Token)))
    (get_validated_token : string -> M St Token)
    (get_user : Token -> M St User)
    (super_post : Request.t -> M St Response.t) request st :
  Request.COOKIES request !! "access_token" = Some EmptyString ->
  CookieJWTAuthentication.authenticate super_authenticate get_validated_token
    get_user request st = super_authenticate request st /\
  CookieTokenVerifyView.forwarded request = Return request /\
  CookieTokenVerifyView.post super_post request st = super_post request st.
Proof.
  intros Hcookie. split; [|split].
  - now rewrite authenticate_falls_back by now right.
  - apply verify_forwarded_unchanged. now right.
  - unfold CookieTokenVerifyView.post.
    now rewrite verify_forwarded_unchanged by now right.
Qed.

Lemma empty_access_cookie_counts_as_absent_witness :
  Request.COOKIES request_with_empty_cookie !! "access_token" = Some EmptyString /\
  CookieJWTAuthentication.authenticate header_absent accepting_validator found_user
    request_with_empty_cookie tt = header_absent request_with_empty_cookie tt /\
  CookieTokenVerifyView.forwarded request_with_empty_cookie
  = Return request_with_empty_cookie /\
  CookieTokenVerifyView.post (fixed_issuer verified) request_with_empty_cookie tt
  = fixed_issuer verified request_with_empty_cookie tt.
Proof.
  split; [reflexivity|].
  apply (empty_access_cookie_counts_as_absent header_absent accepting_validator
           found_user (fixed_issuer verified) request_with_empty_cookie tt).
  reflexivity.
Defined.

(** ** Logout *)

(** [AllowAny] refuses nobody. *)
Lemma check_permissions_AllowAny {St Identity : Type} request
    (user : option Identity) (st : St) :
  check_permissions [AllowAny] request user st = (Return tt, st).
Proof. reflexivity. Qed.

(** The decorated view when the framework's checks pass on a POST: the
    function runs and its response is the view's. *)
Lemma logout_runs_func {St Identity : Type} (fw : Framework St Identity)
    request st st1 user st2 st3 :
  Request.method request = "POST" ->
  perform_content_negotiation fw request st = (Return tt, st1) ->
  perform_authentication fw request st1 = (Return user, st2) ->
  check_throttles fw request st2 = (Return tt, st3) ->
  logout fw request st = logout_func request st3.
Proof.
  intros Hmethod Hneg Hauth Hthrottle.
  unfold logout, api_view, try_except_as, initial, bind. simpl.
  rewrite Hneg, Hauth. simpl. rewrite Hthrottle, Hmethod. reflexivity.
Qed.

(** C8 (as amended).  For every POST to logout on which the framework's
    checks before the view body do not raise (content negotiation,
    authentication, throttling; the view's permission, AllowAny, refuses
    nobody), regardless of which cookies the request carried and of who the
    caller is, the response deletes both the [access_token] and the
    [refresh_token] cookie, has status 200 and the body
    {"detail": "Logged out"}, and the view body changes no server-side
    state: the state is the one the checks left. *)
Theorem logout_clears_both_cookies {St Identity : Type} (fw : Framework St Identity)
    (request : Request.t) (st st1 : St) (user : option Identity) (st2 st3 : St) :
  Request.method request = "POST" ->
  perform_content_negotiation fw request st = (Return tt, st1) ->
  perform_authentication fw request st1 = (Return user, st2) ->
  check_throttles fw request st2 = (Return tt, st3) ->
  exists response,
    logout fw request st = (Return response, st3) /\
    Response.cookies response !! "access_token" = Some CookieDeleted /\
    Response.cookies response !! "refresh_token" = Some CookieDeleted /\
    Response.status_code response = HTTPStatus_OK /\
    Response.data response = {[ "detail" := PStr "Logged out" ]}.
Proof.
  intros Hmethod Hneg Hauth Hthrottle.
  rewrite (logout_runs_func fw _ _ _ _ _ _ Hmethod Hneg Hauth Hthrottle).
  eexists. split; [reflexivity|]. simpl. repeat split.
Qed.

Lemma logout_clears_both_cookies_witness :
  Request.method logout_request = "POST" /\
  perform_content_negotiation (cookie_framework found_user) logout_request tt
  = (Return tt, tt) /\
  perform_authentication (cookie_framework found_user) logout_request tt
  = (Return None, tt) /\
  check_throttles (cookie_framework found_user) logout_request tt = (Return tt, tt) /\
  exists response,
    logout (cookie_framework found_user) logout_request tt = (Return response, tt) /\
    Response.cookies response !! "access_token" = Some CookieDeleted /\
    Response.cookies response !! "refresh_token" = Some CookieDeleted /\
    Response.status_code response = HTTPStatus_OK /\
    Response.data response = {[ "detail" := PStr "Logged out" ]}.
Proof.
  repeat (split; [reflexivity|]).
  exact (logout_clears_both_cookies (cookie_framework found_user) logout_request
           tt tt None tt tt eq_refl eq_refl eq_refl eq_refl).
Defined.

(** C8 as stated fails: a POST to logout that carries, in its
    [access_token] cookie, a valid token of a user whose account is
    disabled.  The cookie authenticator runs before the view body, user
    resolution raises AuthenticationFailed, the framework answers 401, and
    neither cookie is deleted. *)
Lemma logout_of_inactive_user_deletes_nothing :
  Request.method request_after_login = "POST" /\
  Request.COOKIES request_after_login !! "access_token" = Some "a1" /\
  perform_authentication (cookie_framework inactive_user) request_after_login tt
  = (Raise (AuthenticationFailed "User is inactive"), tt) /\
  exists response,
    logout (cookie_framework inactive_user) request_after_login tt
    = (Return response, tt) /\
    Response.status_code response = 401 /\
    Response.cookies response !! "access_token" = None /\
    Response.cookies response !! "refresh_token" = None.
Proof.
  repeat (split; [reflexivity|]).
  eexists. split; [reflexivity|]. vm_compute. repeat split.
Qed.

(** * Further properties of the code *)

(** ** Refresh: the parent's answer *)

(** X1.  When the parent answers the request Refresh forwards with status OK and a
    truthy value under [access], the view returns normally with status 200,
    the [access_token] cookie set to that value (httpOnly, secure unless
    DEBUG, Strict, 3600 seconds), no [access] field in the body and
    [detail] equal to "Token refreshed". *)
Theorem refresh_ok_moves_access_token {St : Type} settings
    (super_post : Request.t -> M St Response.t) request forwarded_request
    st response st' v :
  CookieTokenRefreshView.forwarded request = Return forwarded_request ->
  super_post forwarded_request st = (Return response, st') ->
  Response.status_code response = HTTPStatus_OK ->
  Response.data response !! "access" = Some v ->
  truthy v = true ->
  exists response',
    CookieTokenRefreshView.post settings super_post request st
    = (Return response', st') /\
    Response.status_code response' = 200 /\
    Response.cookies response' !! "access_token"
    = Some (token_cookie settings v 3600) /\
    Response.data response' !! "access" = None /\
    Response.data response' !! "detail" = Some (PStr "Token refreshed").
Proof.
  intros Hforwarded Hsuper Hok Hv Ht.
  exists (CookieTokenRefreshView.relay settings response).
  split; [now apply (refresh_post_Return _ _ _ forwarded_request)|].
  split.
  { unfold CookieTokenRefreshView.relay. rewrite Hok. simpl.
    destruct (truthy (dict_get _ "access")); exact Hok. }
  rewrite refresh_relay_ok_data, refresh_relay_ok_cookies by assumption.
  cbv zeta. rewrite (dict_get_Some _ _ _ Hv), Ht.
  split; [apply lookup_insert_eq|].
  split; now simplify_map_eq.
Qed.

Lemma refresh_ok_moves_access_token_witness :
  exists forwarded_request,
    CookieTokenRefreshView.forwarded refresh_request = Return forwarded_request /\
    fixed_issuer refreshed_access forwarded_request tt = (Return refreshed_access, tt) /\
    Response.status_code refreshed_access = HTTPStatus_OK /\
    Response.data refreshed_access !! "access" = Some (PStr "a2") /\
    truthy (PStr "a2") = true /\
    exists response',
      CookieTokenRefreshView.post production (fixed_issuer refreshed_access)
        refresh_request tt = (Return response', tt) /\
      Response.status_code response' = 200 /\
      Response.cookies response' !! "access_token"
      = Some (token_cookie production (PStr "a2") 3600) /\
      Response.data response' !! "access" = None /\
      Response.data response' !! "detail" = Some (PStr "Token refreshed").
Proof.
  eexists. split; [reflexivity|].
  repeat (split; [reflexivity|]).
  eapply (refresh_ok_moves_access_token production (fixed_issuer refreshed_access)
            refresh_request _ tt refreshed_access tt (PStr "a2")); reflexivity.
Defined.

(** X2.  When the parent answers the request Refresh forwards with a status
    other than OK, the view returns that very response: body, status and
    cookie jar are the parent's. *)
Theorem refresh_failure_passes_through {St : Type} settings
    (super_post : Request.t -> M St Response.t) request forwarded_request
    st response st' :
  CookieTokenRefreshView.forwarded request = Return forwarded_request ->
  super_post forwarded_request st = (Return response, st') ->
  Response.status_code response <> HTTPStatus_OK ->
  CookieTokenRefreshView.post settings super_post request st = (Return response, st').
Proof.
  intros Hforwarded Hsuper Hko.
  rewrite (refresh_post_Return _ _ _ _ _ _ _ Hforwarded Hsuper).
  now rewrite refresh_relay_not_ok.
Qed.

Lemma refresh_failure_passes_through_witness :
  exists forwarded_request,
    CookieTokenRefreshView.forwarded refresh_request = Return forwarded_request /\
    fixed_issuer refresh_rejected forwarded_request tt = (Return refresh_rejected, tt) /\
    Response.status_code refresh_rejected <> HTTPStatus_OK /\
    CookieTokenRefreshView.post production (fixed_issuer refresh_rejected)
      refresh_request tt = (Return refresh_rejected, tt).
Proof.
  eexists. split; [reflexivity|]. split; [reflexivity|]. split; [discriminate|].
  eapply (refresh_failure_passes_through production (fixed_issuer refresh_rejected)
            refresh_request _ tt refresh_rejected tt);
    [reflexivity|reflexivity|discriminate].
Defined.

(** ** Exceptions *)

(** X3.  Issue raises exactly when the parent raises, with the same
    exception and the same final state.  Refresh and Verify raise exactly
    in two cases: the parent raises on the request it is handed, and then
    the exception and the final state are the parent's; or the cookie is
    non-empty and writing it into [request.data] raises, and then that
    exception is raised, the parent is not called and the state is
    untouched.  The write raises on every body that is not a [dict]: a form
    body gives AttributeError, since its QueryDict is immutable. *)
Theorem views_raise_what_parent_raises {St : Type} settings
    (super_post : Request.t -> M St Response.t) request st e st' :
  (CookieTokenObtainPairView.post settings super_post request st = (Raise e, st')
   <-> super_post request st = (Raise e, st')) /\
  (CookieTokenRefreshView.post settings super_post request st = (Raise e, st')
   <-> (exists forwarded_request,
          CookieTokenRefreshView.forwarded request = Return forwarded_request /\
          super_post forwarded_request st = (Raise e, st')) \/
       (exists tok,
          Request.COOKIES request !! "refresh_token" = Some tok /\
          tok <> EmptyString /\
          Request.data_setitem request "refresh" (PStr tok) = Raise e /\
          st' = st)) /\
  (CookieTokenVerifyView.post super_post request st = (Raise e, st')
   <-> (exists forwarded_request,
          CookieTokenVerifyView.forwarded request = Return forwarded_request /\
          super_post forwarded_request st = (Raise e, st')) \/
       (exists tok,
          Request.COOKIES request !! "access_token" = Some tok /\
          tok <> EmptyString /\
          Request.data_setitem request "token" (PStr tok) = Raise e /\
          st' = st)) /\
  (forall key v,
     (exists fields, Request.data request = Request.Dict fields)
     \/ (exists e0, Request.data_setitem request key v = Raise e0)) /\
  (forall fields key v,
     Request.data request = Request.QueryDict fields ->
     Request.data_setitem request key v
     = Raise (OtherException "AttributeError" "This QueryDict instance is immutable")).
Proof.
  split; [|split; [|split; [|split]]].
  - unfold CookieTokenObtainPairView.post, bind, ret.
    destruct (super_post request st) as [[r|e0] s]; split; congruence.
  - unfold CookieTokenRefreshView.post, lift, bind, ret.
    destruct (CookieTokenRefreshView.forwarded request) as [fr|e0] eqn:Hf.
    + destruct (super_post fr st) as [[r|e1] s] eqn:Hs; split.
      * discriminate.
      * intros [(fr' & [= <-] & Hs') | (tok & Hcookie & Htok & Hset & _)].
        -- congruence.
        -- rewrite (refresh_forwarded_with_cookie _ _ Hcookie Htok) in Hf.
           congruence.
      * intros [= <- <-]. left. now exists fr.
      * intros [(fr' & [= <-] & Hs') | (tok & Hcookie & Htok & Hset & _)].
        -- congruence.
        -- rewrite (refresh_forwarded_with_cookie _ _ Hcookie Htok) in Hf.
           congruence.
    + split.
      * intros [= <- <-]. right.
        unfold CookieTokenRefreshView.forwarded in Hf.
        destruct (Request.COOKIES request !! "refresh_token") as [tok|] eqn:Hc;
          simpl in Hf; [|discriminate].
        destruct (str_truthy tok) eqn:Ht; [|discriminate].
        exists tok. repeat split; [now apply str_truthy_nonempty|exact Hf].
      * intros [(fr' & [=] & _) | (tok & Hcookie & Htok & Hset & ->)].
        rewrite (refresh_forwarded_with_cookie _ _ Hcookie Htok) in Hf.
        congruence.
  - unfold CookieTokenVerifyView.post, lift, bind.
    destruct (CookieTokenVerifyView.forwarded request) as [fr|e0] eqn:Hf.
    + split.
      * intros Hs. left. now exists fr.
      * intros [(fr' & [= <-] & Hs') | (tok & Hcookie & Htok & Hset & _)].
        -- exact Hs'.
        -- rewrite (verify_forwarded_with_cookie _ _ Hcookie Htok) in Hf.
           congruence.
    + split.
      * intros [= <- <-]. right.
        unfold CookieTokenVerifyView.forwarded in Hf.
        destruct (Request.COOKIES request !! "access_token") as [tok|] eqn:Hc;
          simpl in Hf; [|discriminate].
        destruct (str_truthy tok) eqn:Ht; [|discriminate].
        exists tok. repeat split; [now apply str_truthy_nonempty|exact Hf].
      * intros [(fr' & [=] & _) | (tok & Hcookie & Htok & Hset & ->)].
        rewrite (verify_forwarded_with_cookie _ _ Hcookie Htok) in Hf.
        congruence.
  - intros key v. unfold Request.data_setitem.
    destruct (Request.data request); eauto.
  - intros fields key v Hbody. unfold Request.data_setitem. now rewrite Hbody.
Qed.

Lemma views_raise_what_parent_raises_witness :
  raising_issuer (AuthenticationFailed "No active account") login_request tt
  = (Raise (AuthenticationFailed "No active account"), tt) /\
  CookieTokenObtainPairView.post production
    (raising_issuer (AuthenticationFailed "No active account")) login_request tt
  = (Raise (AuthenticationFailed "No active account"), tt) /\
  Request.COOKIES refresh_request_form !! "refresh_token" = Some "r1" /\
  Request.data refresh_request_form = Request.QueryDict ∅ /\
  CookieTokenRefreshView.post production (recording_issuer refreshed_access)
    refresh_request_form []
  = (Raise (OtherException "AttributeError" "This QueryDict instance is immutable"),
     []).
Proof.
  split; [reflexivity|]. split; [|split; [reflexivity|split; [reflexivity|]]].
  - apply (proj1 (views_raise_what_parent_raises production
                    (raising_issuer (AuthenticationFailed "No active account"))
                    login_request tt (AuthenticationFailed "No active account") tt)).
    reflexivity.
  - apply (proj1 (proj2 (views_raise_what_parent_raises production
                    (recording_issuer refreshed_access) refresh_request_form []
                    (OtherException "AttributeError"
                       "This QueryDict instance is immutable") []))).
    right. exists "r1". repeat split; [discriminate].
Defined.

(** ** What the relays leave alone *)

Lemma obtain_relay_status settings response :
  Response.status_code (CookieTokenObtainPairView.relay settings response)
  = Response.status_code response.
Proof.
  unfold CookieTokenObtainPairView.relay.
  destruct (Response.status_code response =? HTTPStatus_OK)%Z; [|reflexivity].
  cbv zeta. simpl.
  destruct (truthy (dict_get _ "access")), (truthy (dict_get _ "refresh"));
    reflexivity.
Qed.

Lemma refresh_relay_status settings response :
  Response.status_code (CookieTokenRefreshView.relay settings response)
  = Response.status_code response.
Proof.
  unfold CookieTokenRefreshView.relay.
  destruct (Response.status_code response =? HTTPStatus_OK)%Z; [|reflexivity].
  cbv zeta. simpl.
  destruct (truthy (dict_get _ "access")); reflexivity.
Qed.

Lemma obtain_relay_other_data settings response key :
  key <> "access" -> key <> "refresh" -> key <> "detail" ->
  Response.data (CookieTokenObtainPairView.relay settings response) !! key
  = Response.data response !! key.
Proof.
  intros Ha Hr Hd.
  destruct (Z.eq_dec (Response.status_code response) HTTPStatus_OK) as [Hok|Hko].
  - rewrite obtain_relay_ok_data by assumption. now simplify_map_eq.
  - now rewrite obtain_relay_not_ok.
Qed.

Lemma obtain_relay_other_cookies settings response name :
  name <> "access_token" -> name <> "refresh_token" ->
  Response.cookies (CookieTokenObtainPairView.relay settings response) !! name
  = Response.cookies response !! name.
Proof.
  intros Ha Hr.
  destruct (Z.eq_dec (Response.status_code response) HTTPStatus_OK) as [Hok|Hko].
  - rewrite obtain_relay_ok_cookies by assumption. cbv zeta.
    destruct (truthy (dict_get _ "access")), (truthy (dict_get _ "refresh"));
      now simplify_map_eq.
  - now rewrite obtain_relay_not_ok.
Qed.

Lemma refresh_relay_other_data settings response key :
  key <> "access" -> key <> "detail" ->
  Response.data (CookieTokenRefreshView.relay settings response) !! key
  = Response.data response !! key.
Proof.
  intros Ha Hd.
  destruct (Z.eq_dec (Response.status_code response) HTTPStatus_OK) as [Hok|Hko].
  - rewrite refresh_relay_ok_data by assumption. now simplify_map_eq.
  - now rewrite refresh_relay_not_ok.
Qed.

Lemma refresh_relay_other_cookies settings response name :
  name <> "access_token" ->
  Response.cookies (CookieTokenRefreshView.relay settings response) !! name
  = Response.cookies response !! name.
Proof.
  intros Ha.
  destruct (Z.eq_dec (Response.status_code response) HTTPStatus_OK) as [Hok|Hko].
  - rewrite refresh_relay_ok_cookies by assumption. cbv zeta.
    destruct (truthy (dict_get _ "access")); now simplify_map_eq.
  - now rewrite refresh_relay_not_ok.
Qed.

(** X4.  Whatever the parent's response to an Issue request, the view keeps
    its status code, every body field other than [access], [refresh] and
    [detail], and every cookie-jar entry other than [access_token] and
    [refresh_token]. *)
Theorem issue_keeps_rest_of_response {St : Type} settings
    (super_post : Request.t -> M St Response.t) request st response st' :
  super_post request st = (Return response, st') ->
  exists response',
    CookieTokenObtainPairView.post settings super_post request st
    = (Return response', st') /\
    Response.status_code response' = Response.status_code response /\
    (forall key, key <> "access" -> key <> "refresh" -> key <> "detail" ->
       Response.data response' !! key = Response.data response !! key) /\
    (forall name, name <> "access_token" -> name <> "refresh_token" ->
       Response.cookies response' !! name = Response.cookies response !! name).
Proof.
  intros Hsuper. exists (CookieTokenObtainPairView.relay settings response).
  split; [now apply obtain_post_Return|].
  split; [apply obtain_relay_status|].
  split; [apply obtain_relay_other_data|apply obtain_relay_other_cookies].
Qed.

Lemma issue_keeps_rest_of_response_witness :
  fixed_issuer issued_with_extras login_request tt = (Return issued_with_extras, tt) /\
  exists response',
    CookieTokenObtainPairView.post production (fixed_issuer issued_with_extras)
      login_request tt = (Return response', tt) /\
    Response.status_code response' = 200 /\
    Response.data response' !! "user_id" = Some (PInt 7) /\
    Response.cookies response' !! "csrftoken" = Some CookieDeleted.
Proof.
  split; [reflexivity|].
  destruct (issue_keeps_rest_of_response production (fixed_issuer issued_with_extras)
              login_request tt issued_with_extras tt eq_refl)
    as (response' & Hpost & Hstatus & Hdata & Hjar).
  exists response'. split; [exact Hpost|]. split; [exact Hstatus|]. split.
  - rewrite Hdata; [reflexivity|discriminate..].
  - rewrite Hjar; [reflexivity|discriminate..].
Defined.

(** X5.  Whatever the parent's response to the request Refresh forwards, the view keeps
    its status code, every body field other than [access] and [detail] (a
    [refresh] field among them), and every cookie-jar entry other than
    [access_token]. *)
Theorem refresh_keeps_rest_of_response {St : Type} settings
    (super_post : Request.t -> M St Response.t) request forwarded_request
    st response st' :
  CookieTokenRefreshView.forwarded request = Return forwarded_request ->
  super_post forwarded_request st = (Return response, st') ->
  exists response',
    CookieTokenRefreshView.post settings super_post request st
    = (Return response', st') /\
    Response.status_code response' = Response.status_code response /\
    (forall key, key <> "access" -> key <> "detail" ->
       Response.data response' !! key = Response.data response !! key) /\
    (forall name, name <> "access_token" ->
       Response.cookies response' !! name = Response.cookies response !! name).
Proof.
  intros Hforwarded Hsuper. exists (CookieTokenRefreshView.relay settings response).
  split; [now apply (refresh_post_Return _ _ _ forwarded_request)|].
  split; [apply refresh_relay_status|].
  split; [apply refresh_relay_other_data|apply refresh_relay_other_cookies].
Qed.

Lemma refresh_keeps_rest_of_response_witness :
  exists forwarded_request,
    CookieTokenRefreshView.forwarded refresh_request = Return forwarded_request /\
    fixed_issuer issued_with_extras forwarded_request tt
    = (Return issued_with_extras, tt) /\
    exists response',
      CookieTokenRefreshView.post production (fixed_issuer issued_with_extras)
        refresh_request tt = (Return response', tt) /\
      Response.status_code response' = 200 /\
      Response.data response' !! "refresh" = Some (PStr "r1") /\
      Response.cookies response' !! "csrftoken" = Some CookieDeleted /\
      Response.cookies response' !! "refresh_token" = None.
Proof.
  eexists. split; [reflexivity|]. split; [reflexivity|].
  destruct (refresh_keeps_rest_of_response production (fixed_issuer issued_with_extras)
              refresh_request _ tt issued_with_extras tt eq_refl eq_refl)
    as (response' & Hpost & Hstatus & Hdata & Hjar).
  exists response'. split; [exact Hpost|]. split; [exact Hstatus|]. split; [|split].
  - rewrite Hdata; [reflexivity|discriminate..].
  - rewrite Hjar; [reflexivity|discriminate].
  - rewrite Hjar; [reflexivity|discriminate].
Defined.

(** ** A view stacked on itself *)

Lemma Response_eq (r1 r2 : Response.t) :
  Response.status_code r1 = Response.status_code r2 ->
  Response.data r1 = Response.data r2 ->
  Response.cookies r1 = Response.cookies r2 ->
  r1 = r2.
Proof. destruct r1, r2. simpl. now intros -> -> ->. Qed.

(** A relayed body holds no token for a second pass to move. *)
Lemma obtain_relay_idempotent settings response :
  CookieTokenObtainPairView.relay settings
    (CookieTokenObtainPairView.relay settings response)
  = CookieTokenObtainPairView.relay settings response.
Proof.
  destruct (Z.eq_dec (Response.status_code response) HTTPStatus_OK) as [Hok|Hko].
  - assert (Hok' : Response.status_code
                     (CookieTokenObtainPairView.relay settings response)
                   = HTTPStatus_OK)
      by now rewrite obtain_relay_status.
    assert (Ha : Response.data (CookieTokenObtainPairView.relay settings response)
                   !! "access" = None)
      by (rewrite obtain_relay_ok_data by assumption; now simplify_map_eq).
    assert (Hr : Response.data (CookieTokenObtainPairView.relay settings response)
                   !! "refresh" = None)
      by (rewrite obtain_relay_ok_data by assumption; now simplify_map_eq).
    apply Response_eq.
    + now rewrite obtain_relay_status.
    + rewrite (obtain_relay_ok_data _ _ Hok').
      rewrite (delete_id _ _ Ha), (delete_id _ _ Hr).
      rewrite obtain_relay_ok_data by assumption.
      apply insert_insert_eq.
    + rewrite (obtain_relay_ok_cookies _ _ Hok'). cbv zeta.
      now rewrite (dict_get_falsy_when_missing _ _ Ha),
                  (dict_get_falsy_when_missing _ _ Hr).
  - rewrite (obtain_relay_not_ok _ _ Hko). apply (obtain_relay_not_ok _ _ Hko).
Qed.

Lemma refresh_relay_idempotent settings response :
  CookieTokenRefreshView.relay settings
    (CookieTokenRefreshView.relay settings response)
  = CookieTokenRefreshView.relay settings response.
Proof.
  destruct (Z.eq_dec (Response.status_code response) HTTPStatus_OK) as [Hok|Hko].
  - assert (Hok' : Response.status_code
                     (CookieTokenRefreshView.relay settings response)
                   = HTTPStatus_OK)
      by now rewrite refresh_relay_status.
    assert (Ha : Response.data (CookieTokenRefreshView.relay settings response)
                   !! "access" = None)
      by (rewrite refresh_relay_ok_data by assumption; now simplify_map_eq).
    apply Response_eq.
    + now rewrite refresh_relay_status.
    + rewrite (refresh_relay_ok_data _ _ Hok').
      rewrite (delete_id _ _ Ha).
      rewrite refresh_relay_ok_data by assumption.
      apply insert_insert_eq.
    + rewrite (refresh_relay_ok_cookies _ _ Hok'). cbv zeta.
      now rewrite (dict_get_falsy_when_missing _ _ Ha).
  - rewrite (refresh_relay_not_ok _ _ Hko). apply (refresh_relay_not_ok _ _ Hko).
Qed.

(** A request that was forwarded already holds the cookie's value. *)
Lemma data_setitem_again request key v request' :
  Request.data_setitem request key v = Return request' ->
  Request.data_setitem request' key v = Return request'.
Proof.
  intros H. destruct (data_setitem_Return _ _ _ _ H) as (fields & _ & Hbody & _).
  rewrite (data_setitem_Dict request' _ key v Hbody), insert_insert_eq. clear H.
  destruct request' as [m c b]. simpl in *. now subst b.
Qed.

Lemma data_setitem_COOKIES request key v request' :
  Request.data_setitem request key v = Return request' ->
  Request.COOKIES request' = Request.COOKIES request.
Proof.
  intros H. now destruct (data_setitem_Return _ _ _ _ H) as (fields & _ & _ & Hc & _).
Qed.

Lemma refresh_forwarded_idempotent request forwarded_request :
  CookieTokenRefreshView.forwarded request = Return forwarded_request ->
  CookieTokenRefreshView.forwarded forwarded_request = Return forwarded_request.
Proof.
  unfold CookieTokenRefreshView.forwarded.
  destruct (Request.COOKIES request !! "refresh_token") as [tok|] eqn:Hc;
    simpl; [|intros [= <-]; now rewrite Hc].
  destruct (str_truthy tok) eqn:Ht.
  - intros Hset. rewrite (data_setitem_COOKIES _ _ _ _ Hset), Hc. simpl.
    rewrite Ht. exact (data_setitem_again _ _ _ _ Hset).
  - intros [= <-]. rewrite Hc. simpl. now rewrite Ht.
Qed.

Lemma verify_forwarded_idempotent request forwarded_request :
  CookieTokenVerifyView.forwarded request = Return forwarded_request ->
  CookieTokenVerifyView.forwarded forwarded_request = Return forwarded_request.
Proof.
  unfold CookieTokenVerifyView.forwarded.
  destruct (Request.COOKIES request !! "access_token") as [tok|] eqn:Hc;
    simpl; [|intros [= <-]; now rewrite Hc].
  destruct (str_truthy tok) eqn:Ht.
  - intros Hset. rewrite (data_setitem_COOKIES _ _ _ _ Hset), Hc. simpl.
    rewrite Ht. exact (data_setitem_again _ _ _ _ Hset).
  - intros [= <-]. rewrite Hc. simpl. now rewrite Ht.
Qed.

(** X6.  Each view is idempotent as a wrapper: a view whose parent is the
    same view over [super_post] gives, on every request and state, the
    outcome of the view over [super_post].  A second pass finds no token
    field left in the body and injects the same cookie value again; on a
    body that refuses the write both raise the same exception. *)
Theorem views_are_idempotent_wrappers {St : Type} settings
    (super_post : Request.t -> M St Response.t) request st :
  CookieTokenObtainPairView.post settings
    (CookieTokenObtainPairView.post settings super_post) request st
  = CookieTokenObtainPairView.post settings super_post request st /\
  CookieTokenRefreshView.post settings
    (CookieTokenRefreshView.post settings super_post) request st
  = CookieTokenRefreshView.post settings super_post request st /\
  CookieTokenVerifyView.post (CookieTokenVerifyView.post super_post) request st
  = CookieTokenVerifyView.post super_post request st.
Proof.
  split; [|split].
  - unfold CookieTokenObtainPairView.post, bind, ret.
    destruct (super_post request st) as [[r|e] s]; [|reflexivity].
    now rewrite obtain_relay_idempotent.
  - unfold CookieTokenRefreshView.post, lift, bind, ret.
    destruct (CookieTokenRefreshView.forwarded request) as [fr|e] eqn:Hf;
      [|reflexivity].
    rewrite (refresh_forwarded_idempotent _ _ Hf).
    destruct (super_post fr st) as [[r|e] s]; [|reflexivity].
    now rewrite refresh_relay_idempotent.
  - unfold CookieTokenVerifyView.post, lift, bind.
    destruct (CookieTokenVerifyView.forwarded request) as [fr|e] eqn:Hf;
      [|reflexivity].
    now rewrite (verify_forwarded_idempotent _ _ Hf).
Qed.

(** ** The cookie authenticator: which path, and what comes out *)

Section AuthenticatorOutcomes.
Context {St User Token : Type}.
Variable super_authenticate : Request.t -> M St (option (User * Token)).
Variable get_validated_token : string -> M St Token.
Variable get_user : Token -> M St User.

Local Abbreviation authenticate :=
  (CookieJWTAuthentication.authenticate super_authenticate get_validated_token get_user).

(** X7.  The header-based resolution decides the outcome when the cookie is
    absent or empty, and is not consulted at all when the cookie is
    non-empty: the outcome is then the same under any other header-based
    resolution, so a good Authorization header does not rescue a request
    whose cookie is bad. *)
Theorem authenticate_uses_header_only_without_cookie
    (other_authenticate : Request.t -> M St (option (User * Token))) request st :
  (Request.COOKIES request !! "access_token" = None \/
   Request.COOKIES request !! "access_token" = Some EmptyString ->
   authenticate request st = super_authenticate request st) /\
  (forall tok,
     Request.COOKIES request !! "access_token" = Some tok ->
     tok <> EmptyString ->
     authenticate request st
     = CookieJWTAuthentication.authenticate other_authenticate
         get_validated_token get_user request st).
Proof.
  split.
  - intros Hcookie. now rewrite authenticate_falls_back.
  - intros tok Hcookie Htok.
    now rewrite !(authenticate_with_cookie _ _ _ _ _ Hcookie Htok).
Qed.

(** X8.  With a non-empty cookie, an identity that [authenticate] returns is
    the validated form of the cookie's token paired with the user resolved
    from it: validation returned that token and user resolution returned
    that user. *)
Theorem authenticate_identity_is_validated request tok st user validated_token st2 :
  Request.COOKIES request !! "access_token" = Some tok ->
  tok <> EmptyString ->
  authenticate request st = (Return (Some (user, validated_token)), st2) ->
  exists st1,
    get_validated_token tok st = (Return validated_token, st1) /\
    get_user validated_token st1 = (Return user, st2).
Proof.
  intros Hcookie Htok.
  rewrite (authenticate_with_cookie _ _ _ _ _ Hcookie Htok).
  unfold try_except_else, bind, ret.
  destruct (get_validated_token tok st) as [[vt|e] s1].
  - destruct (get_user vt s1) as [[u|e] s2] eqn:Hu.
    + intros [= -> -> ->]. now exists s1.
    + destruct (is_InvalidToken e); discriminate.
  - destruct (is_InvalidToken e); discriminate.
Qed.

(** X9.  With a non-empty cookie, [authenticate] never raises an
    InvalidToken: whatever it raises was raised by validation or by user
    resolution and is of another class; and it answers anonymous only
    when one of the two raised an InvalidToken. *)
Theorem authenticate_cookie_failures request tok st :
  Request.COOKIES request !! "access_token" = Some tok ->
  tok <> EmptyString ->
  (forall e st2,
     authenticate request st = (Raise e, st2) ->
     is_InvalidToken e = false /\
     (get_validated_token tok st = (Raise e, st2) \/
      exists validated_token st1,
        get_validated_token tok st = (Return validated_token, st1) /\
        get_user validated_token st1 = (Raise e, st2))) /\
  (forall st2,
     authenticate request st = (Return None, st2) ->
     (exists detail, get_validated_token tok st = (Raise (InvalidToken detail), st2)) \/
     (exists validated_token st1 detail,
        get_validated_token tok st = (Return validated_token, st1) /\
        get_user validated_token st1 = (Raise (InvalidToken detail), st2))).
Proof.
  intros Hcookie Htok.
  rewrite (authenticate_with_cookie _ _ _ _ _ Hcookie Htok).
  unfold try_except_else, bind, ret.
  destruct (get_validated_token tok st) as [[vt|e0] s1].
  - destruct (get_user vt s1) as [[u|e0] s2] eqn:Hu.
    + split; intros; discriminate.
    + destruct e0 as [d|d|c d]; simpl; split.
      * intros e st2 [=].
      * intros st2 [= <-]. right. now exists vt, s1, d.
      * intros e st2 [= <- <-]. split; [reflexivity|]. right. now exists vt, s1.
      * intros st2 [=].
      * intros e st2 [= <- <-]. split; [reflexivity|]. right. now exists vt, s1.
      * intros st2 [=].
  - destruct e0 as [d|d|c d]; simpl; split.
    + intros e st2 [=].
    + intros st2 [= <-]. left. now exists d.
    + intros e st2 [= <- <-]. split; [reflexivity|]. now left.
    + intros st2 [=].
    + intros e st2 [= <- <-]. split; [reflexivity|]. now left.
    + intros st2 [=].
Qed.

End AuthenticatorOutcomes.

Lemma authenticate_uses_header_only_without_cookie_witness :
  Request.COOKIES request_with_expired_cookie !! "access_token" = Some "expired" /\
  "expired" <> EmptyString /\
  header_accepts request_with_expired_cookie tt = (Return (Some ("bob", "bearer")), tt) /\
  CookieJWTAuthentication.authenticate header_accepts rejecting_validator found_user
    request_with_expired_cookie tt
  = CookieJWTAuthentication.authenticate header_absent rejecting_validator found_user
      request_with_expired_cookie tt.
Proof.
  assert (Hne : "expired" <> EmptyString) by discriminate.
  split; [reflexivity|]. split; [exact Hne|]. split; [reflexivity|].
  exact (proj2 (authenticate_uses_header_only_without_cookie header_accepts
                  rejecting_validator found_user header_absent
                  request_with_expired_cookie tt) "expired" eq_refl Hne).
Defined.

Lemma authenticate_identity_is_validated_witness :
  Request.COOKIES request_after_login !! "access_token" = Some "a1" /\
  "a1" <> EmptyString /\
  CookieJWTAuthentication.authenticate header_absent accepting_validator found_user
    request_after_login tt = (Return (Some ("alice", "a1")), tt) /\
  exists st1,
    accepting_validator "a1" tt = (Return "a1", st1) /\
    found_user "a1" st1 = (Return "alice", tt).
Proof.
  assert (Hne : "a1" <> EmptyString) by discriminate.
  split; [reflexivity|]. split; [exact Hne|]. split; [reflexivity|].
  exact (authenticate_identity_is_validated header_absent accepting_validator
           found_user request_after_login "a1" tt "alice" "a1" tt
           eq_refl Hne eq_refl).
Defined.

Lemma authenticate_cookie_failures_witness :
  Request.COOKIES request_after_login !! "access_token" = Some "a1" /\
  "a1" <> EmptyString /\
  CookieJWTAuthentication.authenticate header_absent accepting_validator inactive_user
    request_after_login tt = (Raise (AuthenticationFailed "User is inactive"), tt) /\
  is_InvalidToken (AuthenticationFailed "User is inactive") = false.
Proof.
  assert (Hne : "a1" <> EmptyString) by discriminate.
  split; [reflexivity|]. split; [exact Hne|]. split; [reflexivity|].
  exact (proj1 (proj1 (authenticate_cookie_failures header_absent
                         accepting_validator inactive_user request_after_login
                         "a1" tt eq_refl Hne)
                  (AuthenticationFailed "User is inactive") tt eq_refl)).
Defined.

(** ** From login to the next request *)

(** X10.  The names agree from one view to the next.  After an issuance
    that the parent answers OK with non-empty strings under [access] and
    [refresh], take any later request that carries, under each name, the
    string the returned jar sets under it.  If its body is a [dict], Refresh
    hands the parent the issued refresh token under [refresh] and Verify
    hands it the issued access token under [token]; and whatever its body,
    [authenticate] returns the identity that validation and user resolution
    give for the issued access token. *)
Theorem issued_tokens_reach_later_requests {St User Token : Type} settings
    (super_post : Request.t -> M St Response.t) request st response st' a r
    (super_authenticate : Request.t -> M St (option (User * Token)))
    (get_validated_token : string -> M St Token)
    (get_user : Token -> M St User) :
  super_post request st = (Return response, st') ->
  Response.status_code response = HTTPStatus_OK ->
  Response.data response !! "access" = Some (PStr a) -> a <> EmptyString ->
  Response.data response !! "refresh" = Some (PStr r) -> r <> EmptyString ->
  exists response',
    CookieTokenObtainPairView.post settings super_post request st
    = (Return response', st') /\
    forall later,
      (forall name c s,
         Response.cookies response' !! name = Some (CookieSet c) ->
         value c = PStr s ->
         Request.COOKIES later !! name = Some s) ->
      (forall fields,
         Request.data later = Request.Dict fields ->
         (exists to_refresh,
            CookieTokenRefreshView.forwarded later = Return to_refresh /\
            Request.data to_refresh
            = Request.Dict (<["refresh" := PStr r]> fields)) /\
         (exists to_verify,
            CookieTokenVerifyView.forwarded later = Return to_verify /\
            Request.data to_verify
            = Request.Dict (<["token" := PStr a]> fields))) /\
      forall st0 validated_token st1 user st2,
        get_validated_token a st0 = (Return validated_token, st1) ->
        get_user validated_token st1 = (Return user, st2) ->
        CookieJWTAuthentication.authenticate super_authenticate
          get_validated_token get_user later st0
        = (Return (Some (user, validated_token)), st2).
Proof.
  intros Hsuper Hok Ha Hane Hr Hrne.
  exists (CookieTokenObtainPairView.relay settings response).
  split; [now apply obtain_post_Return|].
  intros later Hsent.
  assert (Hca : Request.COOKIES later !! "access_token" = Some a).
  { apply (Hsent _ {| value := PStr a; httponly := true;
                      secure := negb (DEBUG settings); samesite := "Strict";
                      max_age := 3600 |}); [|reflexivity].
    rewrite obtain_relay_ok_cookies by assumption. cbv zeta.
    rewrite (dict_get_Some _ _ _ Ha), (dict_get_Some _ _ _ Hr). simpl.
    rewrite (proj2 (str_truthy_nonempty a) Hane),
            (proj2 (str_truthy_nonempty r) Hrne).
    now simplify_map_eq. }
  assert (Hcr : Request.COOKIES later !! "refresh_token" = Some r).
  { apply (Hsent _ {| value := PStr r; httponly := true;
                      secure := negb (DEBUG settings); samesite := "Strict";
                      max_age := 86400 |}); [|reflexivity].
    rewrite obtain_relay_ok_cookies by assumption. cbv zeta.
    rewrite (dict_get_Some _ _ _ Ha), (dict_get_Some _ _ _ Hr). simpl.
    rewrite (proj2 (str_truthy_nonempty a) Hane),
            (proj2 (str_truthy_nonempty r) Hrne).
    now simplify_map_eq. }
  split.
  - intros fields Hbody. split.
    + rewrite (refresh_forwarded_with_cookie _ _ Hcr Hrne),
              (data_setitem_Dict _ _ _ _ Hbody).
      eexists. split; reflexivity.
    + rewrite (verify_forwarded_with_cookie _ _ Hca Hane),
              (data_setitem_Dict _ _ _ _ Hbody).
      eexists. split; reflexivity.
  - intros st0 vt st1 u st2 Hv Hu.
    rewrite (authenticate_with_cookie _ _ _ _ _ Hca Hane).
    unfold try_except_else, bind, ret. now rewrite Hv, Hu.
Qed.

Lemma issued_tokens_reach_later_requests_witness :
  fixed_issuer issued_pair login_request tt = (Return issued_pair, tt) /\
  Response.status_code issued_pair = HTTPStatus_OK /\
  Response.data issued_pair !! "access" = Some (PStr "a1") /\
  Response.data issued_pair !! "refresh" = Some (PStr "r1") /\
  Request.data request_after_login = Request.Dict ∅ /\
  (exists to_refresh,
     CookieTokenRefreshView.forwarded request_after_login = Return to_refresh /\
     Request.data to_refresh = Request.Dict (<["refresh" := PStr "r1"]> ∅)) /\
  (exists to_verify,
     CookieTokenVerifyView.forwarded request_after_login = Return to_verify /\
     Request.data to_verify = Request.Dict (<["token" := PStr "a1"]> ∅)) /\
  CookieJWTAuthentication.authenticate header_absent accepting_validator found_user
    request_after_login tt = (Return (Some ("alice", "a1")), tt).
Proof.
  repeat (split; [reflexivity|]).
  destruct (issued_tokens_reach_later_requests production
              (fixed_issuer issued_pair) login_request tt issued_pair tt
              "a1" "r1" header_absent accepting_validator found_user
              eq_refl eq_refl eq_refl ltac:(discriminate)
              eq_refl ltac:(discriminate))
    as (response' & Hpost & Hlater).
  injection Hpost as <-.
  destruct (Hlater request_after_login) as (Hforward & Hauth).
  2: { destruct (Hforward ∅ eq_refl) as (Hr & Ha).
       split; [exact Hr|]. split; [exact Ha|].
       exact (Hauth tt "a1" tt "alice" tt eq_refl eq_refl). }
  intros name c s.
  rewrite obtain_relay_ok_cookies by reflexivity. cbv zeta.
  rewrite (dict_get_Some (Response.data issued_pair) "access" (PStr "a1") eq_refl),
          (dict_get_Some (Response.data issued_pair) "refresh" (PStr "r1") eq_refl).
  cbn [truthy str_truthy].
  destruct (decide (name = "refresh_token")) as [->|Hnr];
    [|destruct (decide (name = "access_token")) as [->|Hna]].
  - rewrite lookup_insert_eq. intros [= <-] [= <-]. reflexivity.
  - rewrite lookup_insert_ne by congruence. rewrite lookup_insert_eq.
    intros [= <-] [= <-]. reflexivity.
  - rewrite !lookup_insert_ne by congruence.
    change (Response.cookies issued_pair) with (∅ : gmap string CookieWrite).
    rewrite lookup_empty. discriminate.
Defined.

(** ** Logout against the relays *)

(** X11.  Logout undoes whatever the relays can write: for every cookie-jar
    entry that Issue or Refresh adds to or changes in the parent's response,
    the response of [logout] to any POST on which the framework's checks
    do not raise deletes the cookie of that name. *)
Theorem logout_deletes_every_relay_cookie {St Identity : Type} settings
    (response : Response.t) name w (fw : Framework St Identity)
    (request : Request.t) (st st1 : St) (user : option Identity) (st2 st3 : St) :
  Response.cookies (CookieTokenObtainPairView.relay settings response) !! name = Some w \/
  Response.cookies (CookieTokenRefreshView.relay settings response) !! name = Some w ->
  Response.cookies response !! name <> Some w ->
  Request.method request = "POST" ->
  perform_content_negotiation fw request st = (Return tt, st1) ->
  perform_authentication fw request st1 = (Return user, st2) ->
  check_throttles fw request st2 = (Return tt, st3) ->
  exists out,
    logout fw request st = (Return out, st3) /\
    Response.cookies out !! name = Some CookieDeleted.
Proof.
  intros Hw Hnew Hmethod Hneg Hauth Hthrottle.
  assert (Hattr : token_cookie_attributes settings name w)
    by (destruct Hw; eauto using obtain_relay_written, refresh_relay_written).
  rewrite (logout_runs_func fw _ _ _ _ _ _ Hmethod Hneg Hauth Hthrottle).
  eexists. split; [reflexivity|].
  destruct Hattr as (c & _ & _ & _ & _ & [[-> _] | [-> _]]); reflexivity.
Qed.

Lemma logout_deletes_every_relay_cookie_witness :
  Response.cookies (CookieTokenObtainPairView.relay production issued_pair)
    !! "refresh_token" = Some (token_cookie production (PStr "r1") 86400) /\
  Response.cookies issued_pair !! "refresh_token"
  <> Some (token_cookie production (PStr "r1") 86400) /\
  Request.method request_after_login = "POST" /\
  perform_authentication (cookie_framework found_user) request_after_login tt
  = (Return (Some ("alice", "a1")), tt) /\
  exists out,
    logout (cookie_framework found_user) request_after_login tt = (Return out, tt) /\
    Response.cookies out !! "refresh_token" = Some CookieDeleted.
Proof.
  assert (Hnew : Response.cookies issued_pair !! "refresh_token"
                 <> Some (token_cookie production (PStr "r1") 86400))
    by discriminate.
  split; [reflexivity|]. split; [exact Hnew|].
  split; [reflexivity|]. split; [reflexivity|].
  exact (logout_deletes_every_relay_cookie production issued_pair "refresh_token"
           (token_cookie production (PStr "r1") 86400)
           (cookie_framework found_user) request_after_login
           tt tt (Some ("alice", "a1")) tt tt
           (or_introl eq_refl) Hnew eq_refl eq_refl eq_refl eq_refl).
Defined.

(** ** The profile queryset *)

Section Queryset.
Context {St User : Type}.
Variable User_objects : St -> list User.
Variable User_id : User -> Z.

Local Abbreviation get_queryset :=
  (UserViewSet.get_queryset User_objects User_id).

(** X12.  For a caller with an integer id, [get_queryset] returns, without
    touching the state, exactly the rows of the user table whose id is the
    caller's: no row of another user is in it and no row of the caller is
    left out.  For the anonymous caller, whose id is [None], it raises
    AssertionError. *)
Theorem get_queryset_is_callers_rows st :
  (forall uid,
     exists rows,
       get_queryset (Some uid) st = (Return rows, st) /\
       forall u, u ∈ rows <-> u ∈ User_objects st /\ User_id u = uid) /\
  get_queryset None st = (Raise (OtherException "AssertionError" EmptyString), st).
Proof.
  split; [|reflexivity].
  intros uid. eexists. split; [reflexivity|].
  intros u. rewrite list_elem_of_filter. tauto.
Qed.

(** Rows with pairwise distinct ids: at most one has a given id. *)
Lemma filter_unique_id (rows : list User) uid :
  NoDup (User_id <$> rows) ->
  (length (filter (fun u => User_id u = uid) rows) <= 1)%nat.
Proof.
  induction rows as [|u rows IH]; simpl; [lia|].
  rewrite NoDup_cons. intros [Hnotin Hnodup].
  rewrite filter_cons. destruct (decide (User_id u = uid)) as [Heq|Hne].
  - assert (Hnil : filter (fun u0 => User_id u0 = uid) rows = []).
    { destruct (filter (fun u0 => User_id u0 = uid) rows) as [|u0 rest] eqn:Hf;
        [reflexivity|].
      assert (Hin : u0 ∈ filter (fun u0 => User_id u0 = uid) rows)
        by (rewrite Hf; apply list_elem_of_here).
      apply list_elem_of_filter in Hin as [Hu0 Hin].
      exfalso. apply Hnotin. rewrite list_elem_of_fmap.
      exists u0. split; [congruence|exact Hin]. }
    rewrite Hnil. simpl. lia.
  - now apply IH.
Qed.

(** X13.  When the ids of the user table are pairwise distinct, as a primary
    key is, the queryset of any caller holds at most one row. *)
Theorem get_queryset_at_most_one_row st uid rows :
  NoDup (User_id <$> User_objects st) ->
  get_queryset (Some uid) st = (Return rows, st) ->
  (length rows <= 1)%nat.
Proof.
  intros Hnodup [= <-]. now apply filter_unique_id.
Qed.

End Queryset.

Lemma get_queryset_is_callers_rows_witness :
  UserViewSet.get_queryset (fun st : list (Z * string) => st) fst (Some 2) user_table
  = (Return [ (2, "bob@example.com") ], user_table) /\
  UserViewSet.get_queryset (fun st : list (Z * string) => st) fst None user_table
  = (Raise (OtherException "AssertionError" EmptyString), user_table).
Proof.
  split; [reflexivity|].
  exact (proj2 (get_queryset_is_callers_rows
                  (fun st : list (Z * string) => st) fst user_table)).
Defined.

Lemma get_queryset_at_most_one_row_witness :
  NoDup (fst <$> user_table) /\
  UserViewSet.get_queryset (fun st : list (Z * string) => st) fst (Some 2) user_table
  = (Return [ (2, "bob@example.com") ], user_table) /\
  (length [ (2, "bob@example.com") ] <= 1)%nat.
Proof.
  assert (Hnodup : NoDup (fst <$> user_table)).
  { apply (bool_decide_unpack (NoDup (fst <$> user_table))). reflexivity. }
  split; [exact Hnodup|]. split; [reflexivity|].
  exact (get_queryset_at_most_one_row (fun st : list (Z * string) => st) fst
           user_table 2 [ (2, "bob@example.com") ] Hnodup eq_refl).
Defined.
